(** * Acortador-url: the JSON-file store behind the URL shortener

    A shallow embedding of [server/db.js] (the storage functions [initDB],
    [readDB], [writeDB], [findUrl], [findCode], [saveUrl], [registerClick])
    and of the [POST /api/shorten] handler of the Express application,
    followed by the properties of the storage engine.

    Conventions of the embedding:
    - an [async] function is a computation in the monad [M]: it takes the
      state of the outside world (the data directory with the data file and
      the lock file) and gives back an outcome, a returned value or a thrown
      error, with the new world;
    - [JSON.parse] and [JSON.stringify] are not unfolded to characters: the
      content of the data file is either a text that [JSON.parse] rejects, or
      the text of a store, which [JSON.parse] turns back into that store;
    - the [clicks] counter is an integer (JS numbers are exact on integers
      below 2^53). *)

From Stdlib Require Import ZArith.
From stdpp Require Import gmap strings list fin_maps.

Local Open Scope Z_scope.
Local Open Scope string_scope.
Local Open Scope list_scope.

(** ** Data model *)

(** The object built by the handler and pushed by [saveUrl]:
    [{ original, short, code, createdAt, clicks }]. *)
Record UrlData := mkUrlData {
  original : string;
  short : string;
  code : string;
  createdAt : string;
  clicks : Z
}.

(** The parsed data file: [{ urls: [...], codes: {...} }]. *)
Record DB := mkDB {
  urls : list UrlData;
  codes : gmap string string
}.

(** [{ urls: [], codes: {} }] *)
Definition emptyDB : DB := mkDB [] ∅.

#[global] Instance UrlData_eq_dec : EqDecision UrlData.
Proof. solve_decision. Defined.

(** ** JavaScript values and objects *)

(** What [db.codes[shortCode]] can evaluate to: [undefined], an own string
    property, or a member inherited from [Object.prototype]. *)
Inductive JsValue :=
| Undefined
| JsString (s : string)
| Inherited (name : string).

(** The property names every plain object inherits. *)
Definition Object_prototype : list string :=
  [ "constructor"; "__proto__"; "hasOwnProperty"; "isPrototypeOf";
    "propertyIsEnumerable"; "toLocaleString"; "toString"; "valueOf";
    "__defineGetter__"; "__defineSetter__"; "__lookupGetter__";
    "__lookupSetter__" ].

(** [o[k]] on a plain object whose own properties are strings. *)
Definition get_property (o : gmap string string) (k : string) : JsValue :=
  match o !! k with
  | Some v => JsString v
  | None => if bool_decide (k ∈ Object_prototype) then Inherited k else Undefined
  end.

(** [o[k] = v] with [v] a string: an own property is created or overwritten,
    except that assigning a string through the inherited [__proto__] setter
    does nothing. *)
Definition set_property (o : gmap string string) (k v : string)
  : gmap string string :=
  if bool_decide (k = "__proto__" ∧ o !! k = None) then o else <[k:=v]> o.

(** Truthiness, as tested by [if (x)], [!x] and [while (x)]. *)
Definition truthy (v : JsValue) : bool :=
  match v with
  | Undefined => false
  | JsString s => negb (bool_decide (s = ""))
  | Inherited _ => true
  end.

(** [Array.prototype.find]: the first element satisfying the predicate.
    The element is an object, so what [find] gives is a reference into the
    array: its position together with its current fields. *)
Definition array_find_ref {A} (p : A → bool) (l : list A) : option (nat * A) :=
  list_find (λ x, p x = true) l.

Definition array_find {A} (p : A → bool) (l : list A) : option A :=
  snd <$> array_find_ref p l.

(** [n || 0] on a number. *)
Definition or_zero (n : Z) : Z := if bool_decide (n = 0) then 0 else n.

(** [s || d] on a string. *)
Definition or_default (s d : string) : string :=
  if bool_decide (s = "") then d else s.

(** [String.prototype.substring(i, j)] for non-negative integer arguments:
    both are clamped to the length and swapped when [i > j]. *)
Definition js_substring (s : string) (i j : nat) : string :=
  let n := String.length s in
  let a := Nat.min i n in
  let b := Nat.min j n in
  String.substring (Nat.min a b) (Nat.max a b - Nat.min a b) s.

(** ** The outside world *)

(** Content of [data/urls.json], up to [JSON.parse]. *)
Inductive FileContent :=
| Unparseable (text : string)   (* [JSON.parse] throws a SyntaxError *)
| Stored (db : DB).             (* [JSON.parse] returns [db] *)

(** The [data] directory: the data file (if any) and whether the lock file
    [urls.json.lock] exists. *)
Record Dir := mkDir {
  file : option FileContent;
  locked : bool
}.

(** File-system and lock events, in the order they happen. *)
Inductive Event :=
| EvLock          (* lock file created *)
| EvLockFailed    (* lock file still there after the wait *)
| EvUnlock        (* lock file removed (or found absent) *)
| EvRead          (* [fs.readFile] on the data file *)
| EvWrite.        (* [fs.writeFile] on the data file *)

#[global] Instance Event_eq_dec : EqDecision Event.
Proof. solve_decision. Defined.

Record World := mkWorld {
  data_dir : option Dir;     (* [None]: the directory does not exist *)
  trace : list Event
}.

Definition emit (e : Event) (w : World) : World :=
  mkWorld (data_dir w) (trace w ++ [e]).

Definition with_dir (d : Dir) (w : World) : World :=
  mkWorld (Some d) (trace w).

(** The data file as a process sees it. *)
Definition data_file (w : World) : option FileContent :=
  d ← data_dir w; file d.

(** Whether the lock file exists. *)
Definition lock_held (w : World) : bool :=
  match data_dir w with
  | Some d => locked d
  | None => false
  end.

(** ** Errors and the monad of [async] functions *)

Inductive JsError :=
| EEXIST                      (* lockfile: the lock is taken *)
| ENOENT                      (* fs: no such file or directory *)
| SyntaxError                 (* JSON.parse *)
| UrlError (message : string). (* thrown by validateUrl *)

Inductive Outcome (A : Type) :=
| Return (a : A)
| Throw (e : JsError).
Arguments Return {A} a.
Arguments Throw {A} e.

Definition M (A : Type) : Type := World → Outcome A * World.

Definition ret {A} (a : A) : M A := λ w, (Return a, w).

Definition throw {A} (e : JsError) : M A := λ w, (Throw e, w).

Definition bind {A B} (m : M A) (k : A → M B) : M B :=
  λ w, match m w with
       | (Return a, w') => k a w'
       | (Throw e, w') => (Throw e, w')
       end.

(** [try { body } catch (e) { handler }] and [promise.catch(handler)] *)
Definition try_catch {A} (body : M A) (handler : JsError → M A) : M A :=
  λ w, match body w with
       | (Return a, w') => (Return a, w')
       | (Throw e, w') => handler e w'
       end.

(** [try { body } finally { cleanup }]: the cleanup always runs; the outcome
    is the body's unless the cleanup itself throws. *)
Definition try_finally {A} (body : M A) (cleanup : M unit) : M A :=
  λ w, let '(r, w1) := body w in
       match cleanup w1 with
       | (Return _, w2) => (r, w2)
       | (Throw e, w2) => (Throw e, w2)
       end.

Declare Scope js_scope.
Delimit Scope js_scope with js.
Notation "'const' x ':=' 'await' m ; k" := (bind m (λ x, k))
  (at level 10, x name, m at level 100, k at level 200) : js_scope.
Notation "'await' m ; k" := (bind m (λ _, k))
  (at level 10, m at level 100, k at level 200) : js_scope.
Local Open Scope js_scope.

(** ** The [lockfile] and [fs] primitives *)

(** [lock(lockPath, { wait: 1000 })]: creates the lock file; when it already
    exists and is still there after the wait, fails with EEXIST; fails with
    ENOENT when the directory is missing. *)
Definition lock : M unit := λ w,
  match data_dir w with
  | None => (Throw ENOENT, emit EvLockFailed w)
  | Some d =>
      if locked d then (Throw EEXIST, emit EvLockFailed w)
      else (Return (), emit EvLock (with_dir (mkDir (file d) true) w))
  end.

(** [unlock(lockPath)]: removes the lock file, whoever created it; never
    reports an error. *)
Definition unlock : M unit := λ w,
  match data_dir w with
  | None => (Return (), emit EvUnlock w)
  | Some d => (Return (), emit EvUnlock (with_dir (mkDir (file d) false) w))
  end.

(** [fs.readFile(dataPath, "utf8")] *)
Definition readFile : M FileContent := λ w,
  match data_file w with
  | Some c => (Return c, emit EvRead w)
  | None => (Throw ENOENT, emit EvRead w)
  end.

(** [fs.writeFile(dataPath, text)] *)
Definition writeFile (c : FileContent) : M unit := λ w,
  match data_dir w with
  | None => (Throw ENOENT, emit EvWrite w)
  | Some d => (Return (), emit EvWrite (with_dir (mkDir (Some c) (locked d)) w))
  end.

(** [fs.mkdir(dir, { recursive: true })]: no error when the directory is
    already there (permissions and full disks are not part of the world). *)
Definition mkdir : M unit := λ w,
  match data_dir w with
  | None => (Return (), with_dir (mkDir None false) w)
  | Some _ => (Return (), w)
  end.

(** [fs.access(dataPath)]: throws when the file does not exist. *)
Definition access : M unit := λ w,
  match data_file w with
  | Some _ => (Return (), w)
  | None => (Throw ENOENT, w)
  end.

Definition JSON_parse (c : FileContent) : M DB :=
  match c with
  | Unparseable _ => throw SyntaxError
  | Stored db => ret db
  end.

Definition JSON_stringify (db : DB) : FileContent := Stored db.

(** ** server/db.js *)

Definition initDB : M unit :=
  try_catch
    (await mkdir;
     access)
    (λ _, writeFile (JSON_stringify emptyDB)).

Definition readDB : M DB :=
  try_finally
    (await lock;
     const data := await try_catch readFile (λ _, ret (Stored emptyDB));
     JSON_parse data)
    (try_catch unlock (λ _, ret ())).

Definition writeDB (data : DB) : M unit :=
  try_finally
    (await lock;
     writeFile (JSON_stringify data))
    (try_catch unlock (λ _, ret ())).

Definition findUrl (originalUrl : string) : M (option UrlData) :=
  const db := await readDB;
  ret (array_find (λ item, bool_decide (original item = originalUrl)) (urls db)).

Definition findCode (shortCode : string) : M JsValue :=
  const db := await readDB;
  ret (get_property (codes db) shortCode).

Definition saveUrl (urlData : UrlData) : M UrlData :=
  const db := await readDB;
  let db := mkDB (urls db ++ [urlData]) (codes db) in
  let db := mkDB (urls db) (set_property (codes db) (code urlData) (original urlData)) in
  await writeDB db;
  ret urlData.

Definition registerClick (c : string) : M unit :=
  const db := await readDB;
  match array_find_ref (λ item, bool_decide (code item = c)) (urls db) with
  | Some (i, url) =>
      let url := mkUrlData (original url) (short url) (code url) (createdAt url)
                           (or_zero (clicks url) + 1) in
      let db := mkDB (<[i:=url]> (urls db)) (codes db) in
      writeDB db
  | None => ret ()
  end.

(** ** acortador.js: code generation and the [POST /api/shorten] handler *)

(** [Math.random().toString(36).substring(2, 8)], as a function of the text
    [r] that [Math.random().toString(36)] evaluates to. *)
Definition generateCode (r : string) : string := js_substring r 2 8.

(** The digits of base 36: [0-9a-z]. *)
Definition digit36 (d : N) : Ascii.ascii :=
  if (d <? 10)%N then Ascii.ascii_of_N (48 + d) else Ascii.ascii_of_N (87 + d).

(** The base-36 expansion of the fraction [num/den] of [0, 1), cut after [n]
    digits. *)
Fixpoint fraction36 (n : nat) (num den : N) : string :=
  match n with
  | O => ""
  | S n' =>
      if (num =? 0)%N then ""
      else String (digit36 (36 * num / den))
                  (fraction36 n' ((36 * num) mod den) den)
  end.

(** [x.toString(36)] for a number [x = num/den] of [0, 1) whose base-36
    expansion is finite and short enough to be printed in full, such as
    [0] and [0.5]. *)
Definition toString36 (num den : N) : string :=
  if (num =? 0)%N then "0" else "0." +:+ fraction36 11 num den.

Inductive Body :=
| ErrorBody (error : string)
| LinkBody (originalUrl shortUrl code : string).

(** [res.status(s).json(b)]; [res.json(b)] has status 200. *)
Record Response := mkResponse {
  status : nat;
  body : Body
}.

(** [err.message]. For the errors of [lockfile], [fs] and [JSON.parse] the
    texts below stand for the real ones, which also carry the path of the
    lock file or the position in the parsed text; no statement depends on
    them. *)
Definition message (e : JsError) : string :=
  match e with
  | EEXIST => "EEXIST: file already exists"
  | ENOENT => "ENOENT: no such file or directory"
  | SyntaxError => "Unexpected token in JSON"
  | UrlError m => m
  end.

Definition lift {A} (r : Outcome A) : M A := λ w, (r, w).

Section Handler.

(** [process.env.BASE_URL] *)
Variable BASE_URL : string.

(** [validateUrl]: the normalised URL, or a thrown [UrlError]; it rests on
    the [validator] package and on the [URL] class. *)
Variable validateUrl : string → Outcome string.

(** The [do { code = ... } while (await findCode(code))] loop. The values
    of [Math.random().toString(36)] are taken from [randoms], one per turn;
    [None] when they run out while the loop is still turning. *)
Fixpoint pickCode (randoms : list string) : M (option string) :=
  match randoms with
  | [] => ret None
  | r :: randoms =>
      let code := generateCode r in
      const taken := await findCode code;
      if truthy taken then pickCode randoms else ret (Some code)
  end.

(** The handler, for the body field [originalUrl] (a missing field behaves
    as the empty string), with [now] the value of
    [new Date().toISOString()]. *)
Definition shorten (originalUrl now : string) (randoms : list string)
  : M (option Response) :=
  try_catch
    (if bool_decide (originalUrl = "") then
       ret (Some (mkResponse 400 (ErrorBody "Se requiere una URL")))
     else
       const validatedUrl := await lift (validateUrl originalUrl);
       const existing := await findUrl validatedUrl;
       match existing with
       | Some existing =>
           ret (Some (mkResponse 200
                  (LinkBody (original existing) (short existing) (code existing))))
       | None =>
           const picked := await pickCode randoms;
           match picked with
           | None => ret None
           | Some code =>
               let shortUrl := BASE_URL +:+ "/r/" +:+ code in
               let urlData := mkUrlData validatedUrl shortUrl code now 0 in
               await saveUrl urlData;
               ret (Some (mkResponse 201 (LinkBody validatedUrl shortUrl code)))
           end
       end)
    (λ err,
       ret (Some (mkResponse 400
              (ErrorBody (or_default (message err) "Error al procesar la URL"))))).

End Handler.

(** * Vocabulary of the statements *)

(** ** Worlds and observations *)

(** A world in working order: the directory exists, the data file holds the
    store [db] and the lock is free. *)
Definition ready (db : DB) (tr : list Event) : World :=
  mkWorld (Some (mkDir (Some (Stored db)) false)) tr.

(** The store held by the data file, when it holds one. *)
Definition store_of (w : World) : option DB :=
  match data_file w with
  | Some (Stored db) => Some db
  | _ => None
  end.

Definition records_for_original (u : string) (db : DB) : nat :=
  length (filter (λ r, original r = u) (urls db)).

Definition records_for_code (c : string) (db : DB) : nat :=
  length (filter (λ r, code r = c) (urls db)).

(** ** Example data *)

Definition example_record : UrlData :=
  mkUrlData "https://example.com/" "https://sho.rt/r/ab12cd" "ab12cd"
            "2024-01-01T00:00:00.000Z" 3.

Definition example_again : UrlData :=
  mkUrlData "https://example.com/" "https://sho.rt/r/ab12cd" "ab12cd"
            "2024-02-02T00:00:00.000Z" 0.

Definition example_other : UrlData :=
  mkUrlData "https://example.org/" "https://sho.rt/r/zz99yy" "zz99yy"
            "2024-01-05T00:00:00.000Z" 0.

Definition example_store : DB :=
  mkDB [example_record] {[ "ab12cd" := "https://example.com/" ]}.

(** ** Repeated clicks *)

(** [K] calls of [registerClick(c)], one after the other. *)
Fixpoint repeatClick (K : nat) (c : string) : M unit :=
  match K with
  | O => ret ()
  | S K' => await registerClick c; repeatClick K' c
  end.

(** The record [r] with its counter set to [n]. *)
Definition with_clicks (n : Z) (r : UrlData) : UrlData :=
  mkUrlData (original r) (short r) (code r) (createdAt r) n.

(** ** Critical sections *)

(** Whether the lock is released and the data file written afterwards. *)
Fixpoint released_before_write (evs : list Event) : bool :=
  match evs with
  | [] => false
  | EvUnlock :: rest => bool_decide (EvWrite ∈ rest)
  | _ :: rest => released_before_write rest
  end.

(** One critical section: the lock is taken exactly once, and not released
    before the write. *)
Definition single_critical_section (evs : list Event) : bool :=
  bool_decide (length (filter (λ e, e = EvLock) evs) = 1%nat)
  && negb (released_before_write evs).

(** ** Uniqueness and reachable worlds *)

(** No two records share a code, and no two share an original URL. *)
Definition unique_store (db : DB) : Prop :=
  NoDup (code <$> urls db) ∧ NoDup (original <$> urls db).

(** The same about the store in the data file, if it holds one. *)
Definition world_unique (w : World) : Prop :=
  match store_of w with
  | Some db => unique_store db
  | None => True
  end.

(** The storage operations, as calls. *)
Inductive Op :=
| OpInitDB
| OpFindUrl (originalUrl : string)
| OpFindCode (shortCode : string)
| OpSaveUrl (urlData : UrlData)
| OpRegisterClick (code : string).

(** The world after a call, whether it returned or threw. *)
Definition exec (op : Op) (w : World) : World :=
  match op with
  | OpInitDB => (initDB w).2
  | OpFindUrl u => (findUrl u w).2
  | OpFindCode c => (findCode c w).2
  | OpSaveUrl d => (saveUrl d w).2
  | OpRegisterClick c => (registerClick c w).2
  end.

(** The worlds that calls can produce, starting with nothing on disk. *)
Inductive reachable : World → Prop :=
| reachable_start : reachable (mkWorld None [])
| reachable_exec op w : reachable w → reachable (exec op w).

(** [saveUrl d] is called as the handler calls it: no record of the store
    has the original URL of [d] or its code. *)
Definition fresh_for (d : UrlData) (w : World) : Prop :=
  match store_of w with
  | Some db =>
      (original d ∉ original <$> urls db) ∧ (code d ∉ code <$> urls db)
  | None => True
  end.

Definition guarded (op : Op) (w : World) : Prop :=
  match op with
  | OpSaveUrl d => fresh_for d w
  | _ => True
  end.

Definition twice_saved : World :=
  exec (OpSaveUrl example_record)
    (exec (OpSaveUrl example_record) (exec OpInitDB (mkWorld None []))).

(** ** The generation loop *)

(** The world after [saveUrl] has stored a second record under the code of
    [example_record]. *)
Definition twice_coded : World :=
  (saveUrl example_again (ready example_store [])).2.

(** The code the generation loop settles on: the first candidate for which
    [db.codes[code]] is falsy. *)
Fixpoint first_free (cs : gmap string string) (randoms : list string)
  : option string :=
  match randoms with
  | [] => None
  | r :: randoms =>
      if truthy (get_property cs (generateCode r)) then first_free cs randoms
      else Some (generateCode r)
  end.

(** * The rest of the application *)

(** ** acortador.js: [validateUrl] *)

Section Validation.

(** [validator.isURL(url, { require_protocol: true, protocols: ["http",
    "https"] })] *)
Variable isURL : string → bool.

(** [new URL(url).toString()]; [None] when the constructor throws. *)
Variable URL_toString : string → option string.

Definition validateUrl (url : string) : Outcome string :=
  if negb (isURL url) then
    Throw (UrlError "URL inválida. Debe incluir http:// o https://")
  else
    match URL_toString url with
    | Some normalised => Return normalised
    | None => Throw (UrlError "URL mal formada")
    end.

End Validation.

(** ** acortador.js: the [GET /r/:code] handler *)

(** What the redirect handler answers with. *)
Inductive Reply :=
| Sent (status : nat) (text : string)              (* [res.status(s).send(text)] *)
| Redirected (status : nat) (location : JsValue).  (* [res.redirect(s, url)] *)

(** The handler, for the route parameter [code]. The [console.error] of the
    [catch] block is left out. *)
Definition redirect (code : string) : M Reply :=
  try_catch
    (const originalUrl := await findCode code;
     if negb (truthy originalUrl) then ret (Sent 404 "URL no encontrada")
     else
       await registerClick code;
       ret (Redirected 302 originalUrl))
    (λ err, ret (Sent 500 "Error interno del servidor")).

(** ** Two calls in flight *)

(** What [saveUrl] does once its [readDB] has returned [db]. *)
Definition saveUrl_commit (urlData : UrlData) (db : DB) : M UrlData :=
  let db := mkDB (urls db ++ [urlData]) (codes db) in
  let db := mkDB (urls db) (set_property (codes db) (code urlData) (original urlData)) in
  await writeDB db;
  ret urlData.

(** What [registerClick] does once its [readDB] has returned [db]. *)
Definition registerClick_commit (c : string) (db : DB) : M unit :=
  match array_find_ref (λ item, bool_decide (code item = c)) (urls db) with
  | Some (i, url) =>
      let url := mkUrlData (original url) (short url) (code url) (createdAt url)
                           (or_zero (clicks url) + 1) in
      let db := mkDB (<[i:=url]> (urls db)) (codes db) in
      writeDB db
  | None => ret ()
  end.

(** Two [saveUrl] calls whose reads both happen before either write. *)
Definition saveUrl_interleaved (a b : UrlData) : M (UrlData * UrlData) :=
  const dbA := await readDB;
  const dbB := await readDB;
  const ra := await saveUrl_commit a dbA;
  const rb := await saveUrl_commit b dbB;
  ret (ra, rb).

(** Two [registerClick] calls whose reads both happen before either write. *)
Definition registerClick_interleaved (c1 c2 : string) : M unit :=
  const db1 := await readDB;
  const db2 := await readDB;
  await registerClick_commit c1 db1;
  registerClick_commit c2 db2.

(** Two shorten requests for the same new URL: both [findUrl] checks run
    before either [saveUrl]. *)
Definition check_then_save (u : string) (a b : UrlData)
  : M (option UrlData * option UrlData) :=
  const existingA := await findUrl u;
  const existingB := await findUrl u;
  await saveUrl a;
  await saveUrl b;
  ret (existingA, existingB).

(** ** More vocabulary *)

(** A world whose lock file exists: somebody holds the lock. *)
Definition contended (content : option FileContent) (tr : list Event) : World :=
  mkWorld (Some (mkDir content true)) tr.

(** A world with the directory in place and the lock free. *)
Definition idle (content : option FileContent) (tr : list Event) : World :=
  mkWorld (Some (mkDir content false)) tr.

(** The index agrees with the records: the code of every record is mapped
    to the original URL of that record. *)
Definition well_indexed (db : DB) : Prop :=
  ∀ r, r ∈ urls db → codes db !! code r = Some (original r).

Definition world_indexed (w : World) : Prop :=
  match store_of w with
  | Some db => well_indexed db
  | None => True
  end.

(** [saveUrl] is called with a code that no record has and that is not
    [__proto__]. *)
Definition index_guarded (op : Op) (w : World) : Prop :=
  match op with
  | OpSaveUrl d =>
      code d ≠ "__proto__" ∧
      match store_of w with
      | Some db => code d ∉ code <$> urls db
      | None => True
      end
  | _ => True
  end.

(** The clicks of all the records together. *)
Definition total_clicks (db : DB) : Z :=
  foldr Z.add 0 (clicks <$> urls db).

(** A record without its counter. *)
Definition identity_of (r : UrlData) : string * string * string * string :=
  (original r, short r, code r, createdAt r).

(** The characters [0-9a-z]. *)
Definition is_base36 (ch : Ascii.ascii) : bool :=
  let n := Ascii.N_of_ascii ch in
  ((48 <=? n)%N && (n <=? 57)%N) || ((97 <=? n)%N && (n <=? 122)%N).

Definition all_base36 (s : string) : bool :=
  forallb is_base36 (String.list_ascii_of_string s).

(** Stand-ins for [validator.isURL] and [new URL(url).toString()] in the
    examples. *)
Definition example_isURL (url : string) : bool :=
  String.prefix "http://" url || String.prefix "https://" url.

Definition example_URL_toString (url : string) : option string :=
  if bool_decide (url = "https://[") then None else Some url.

Definition example_other_url_same_code : UrlData :=
  mkUrlData "https://example.net/" "https://sho.rt/r/ab12cd" "ab12cd"
            "2024-04-04T00:00:00.000Z" 0.

(** The events of one [readDB] (and of [findUrl], [findCode]). *)
Definition read_section : list Event := [EvLock; EvRead; EvUnlock].

(** * Properties *)

(** ** Running the primitives *)

Ltac run_js :=
  cbv [bind ret throw lift try_catch try_finally lock unlock readFile
       writeFile mkdir access JSON_parse JSON_stringify emit with_dir
       data_file data_dir file locked trace ready mbind option_bind].

Lemma readDB_ready db tr :
  readDB (ready db tr) = (Return db, ready db (tr ++ [EvLock; EvRead; EvUnlock])).
Proof. unfold readDB. run_js. by rewrite <- !app_assoc. Qed.

Lemma writeDB_ready data db tr :
  writeDB data (ready db tr)
  = (Return (), ready data (tr ++ [EvLock; EvWrite; EvUnlock])).
Proof. unfold writeDB. run_js. by rewrite <- !app_assoc. Qed.

Lemma bind_Return {A B} (m : M A) (k : A → M B) w a w' :
  m w = (Return a, w') → bind m k w = k a w'.
Proof. unfold bind. by intros ->. Qed.

Lemma findUrl_ready u db tr :
  findUrl u (ready db tr)
  = (Return (array_find (λ item, bool_decide (original item = u)) (urls db)),
     ready db (tr ++ [EvLock; EvRead; EvUnlock])).
Proof. unfold findUrl. by rewrite (bind_Return _ _ _ _ _ (readDB_ready db tr)). Qed.

Lemma findCode_ready c db tr :
  findCode c (ready db tr)
  = (Return (get_property (codes db) c),
     ready db (tr ++ [EvLock; EvRead; EvUnlock])).
Proof. unfold findCode. by rewrite (bind_Return _ _ _ _ _ (readDB_ready db tr)). Qed.

Lemma saveUrl_ready d db tr :
  saveUrl d (ready db tr)
  = (Return d,
     ready (mkDB (urls db ++ [d]) (set_property (codes db) (code d) (original d)))
           (tr ++ [EvLock; EvRead; EvUnlock; EvLock; EvWrite; EvUnlock])).
Proof.
  unfold saveUrl. rewrite (bind_Return _ _ _ _ _ (readDB_ready db tr)). cbn [urls codes].
  erewrite bind_Return by apply writeDB_ready.
  unfold ret. by rewrite <- app_assoc.
Qed.

Lemma registerClick_ready c db tr :
  registerClick c (ready db tr)
  = match array_find_ref (λ item, bool_decide (code item = c)) (urls db) with
    | Some (i, url) =>
        (Return (),
         ready (mkDB (<[i:=mkUrlData (original url) (short url) (code url)
                           (createdAt url) (or_zero (clicks url) + 1)]> (urls db))
                     (codes db))
               (tr ++ [EvLock; EvRead; EvUnlock; EvLock; EvWrite; EvUnlock]))
    | None => (Return (), ready db (tr ++ [EvLock; EvRead; EvUnlock]))
    end.
Proof.
  unfold registerClick. rewrite (bind_Return _ _ _ _ _ (readDB_ready db tr)).
  destruct (array_find_ref _ _) as [[i url]|]; [|done].
  rewrite writeDB_ready. by rewrite <- app_assoc.
Qed.

(** ** Pure facts about the array and number operations *)

Lemma or_zero_id n : or_zero n = n.
Proof. unfold or_zero. by case_bool_decide. Qed.

(** The first element satisfying [p] in [pre ++ x :: post], when nothing in
    [pre] satisfies it, is [x], at position [length pre]. *)
Lemma array_find_ref_middle {A} (p : A → bool) (pre post : list A) (x : A) :
  Forall (λ y, p y = false) pre → p x = true →
  array_find_ref p (pre ++ x :: post) = Some (length pre, x).
Proof.
  intros Hpre Hx. unfold array_find_ref. apply list_find_Some.
  split_and!; [by apply list_lookup_middle | done |].
  intros j y Hj Hlt. rewrite lookup_app_l in Hj by done.
  rewrite Forall_lookup in Hpre. specialize (Hpre j y Hj). congruence.
Qed.

Lemma array_find_ref_None {A} (p : A → bool) (l : list A) :
  array_find_ref p l = None ↔ Forall (λ y, p y = false) l.
Proof.
  unfold array_find_ref. rewrite list_find_None.
  apply Forall_iff. intros y. by destruct (p y).
Qed.

Lemma insert_middle {A} (pre post : list A) (x y : A) :
  <[length pre:=y]> (pre ++ x :: post) = pre ++ y :: post.
Proof.
  replace (length pre) with (length pre + 0)%nat by lia.
  by rewrite insert_app_r.
Qed.

Lemma not_in_codes (c : string) (l : list UrlData) :
  c ∉ code <$> l ↔ Forall (λ y, bool_decide (code y = c) = false) l.
Proof.
  rewrite Forall_forall, list_elem_of_fmap. split.
  - intros H y Hy. apply bool_decide_eq_false. intros <-. apply H. eauto.
  - intros H (y & -> & Hy). specialize (H y Hy).
    by apply bool_decide_eq_false in H.
Qed.

Lemma not_in_originals (u : string) (l : list UrlData) :
  u ∉ original <$> l ↔ Forall (λ y, bool_decide (original y = u) = false) l.
Proof.
  rewrite Forall_forall, list_elem_of_fmap. split.
  - intros H y Hy. apply bool_decide_eq_false. intros <-. apply H. eauto.
  - intros H (y & -> & Hy). specialize (H y Hy).
    by apply bool_decide_eq_false in H.
Qed.

(** ** [saveUrl]: duplicates *)

(** C1 (as stated, refuted). On a store that already holds a record for
    ["https://example.com/"] under the code ["ab12cd"], [saveUrl] called with
    the same URL and code returns its own argument, not the stored record,
    and the store ends with two records for that URL and two for that
    code. *)
Lemma saveUrl_duplicate_counterexample :
  (saveUrl example_again (ready example_store [])).1 = Return example_again ∧
  example_again ≠ example_record ∧
  urls <$> store_of (saveUrl example_again (ready example_store [])).2
    = Some [example_record; example_again] ∧
  records_for_original "https://example.com/"
    <$> store_of (saveUrl example_again (ready example_store [])).2 = Some 2%nat ∧
  records_for_code "ab12cd"
    <$> store_of (saveUrl example_again (ready example_store [])).2 = Some 2%nat.
Proof. rewrite saveUrl_ready. by split_and!. Qed.

(** C1 (amended). [saveUrl] checks nothing: on every store it appends its
    argument as the last record, assigns [codes[code] = original], writes the
    store back and returns the argument itself. The number of records for
    that original URL, and for that code, grows by one whatever it was. *)
Theorem saveUrl_appends (d : UrlData) (db : DB) (tr : list Event) :
  ∃ db' tr',
    saveUrl d (ready db tr) = (Return d, ready db' tr') ∧
    urls db' = urls db ++ [d] ∧
    codes db' = set_property (codes db) (code d) (original d) ∧
    records_for_original (original d) db'
      = S (records_for_original (original d) db) ∧
    records_for_code (code d) db' = S (records_for_code (code d) db).
Proof.
  eexists _, _. split; [apply saveUrl_ready|]. cbn [urls codes].
  unfold records_for_original, records_for_code. cbn [urls].
  rewrite !filter_app, !length_app, !filter_cons_True, !filter_nil by done.
  cbn. split_and!; [done | done | lia | lia].
Qed.

(** ** [findUrl]: first match *)

(** C10. When several records share the original URL [u], [findUrl u]
    returns the earliest of them: the record [r] that no record with that
    URL precedes, whatever follows it. *)
Theorem findUrl_first_match (db : DB) (pre post : list UrlData) (r : UrlData)
    (u : string) (tr : list Event) :
  urls db = pre ++ r :: post →
  original r = u →
  u ∉ original <$> pre →
  (findUrl u (ready db tr)).1 = Return (Some r).
Proof.
  intros Hurls Hr Hpre. rewrite findUrl_ready. cbn. f_equal.
  unfold array_find. rewrite Hurls.
  rewrite (array_find_ref_middle _ pre post r); [done | | by apply bool_decide_eq_true].
  by apply not_in_originals.
Qed.

Lemma findUrl_first_match_witness :
  (findUrl "https://example.com/"
     (ready (mkDB [example_other; example_record; example_again] ∅) [])).1
  = Return (Some example_record).
Proof.
  apply (findUrl_first_match _ [example_other] [example_again]); [done..|].
  by apply not_in_originals; repeat constructor.
Defined.

(** ** [registerClick]: counting *)

Lemma with_clicks_id r : with_clicks (clicks r) r = r.
Proof. by destruct r. Qed.

(** One call on a store whose first record with code [c] is [r]. *)
Lemma registerClick_found c pre r post cs tr :
  code r = c → c ∉ code <$> pre →
  registerClick c (ready (mkDB (pre ++ r :: post) cs) tr)
  = (Return (),
     ready (mkDB (pre ++ with_clicks (clicks r + 1) r :: post) cs)
           (tr ++ [EvLock; EvRead; EvUnlock; EvLock; EvWrite; EvUnlock])).
Proof.
  intros Hr Hpre. rewrite registerClick_ready. cbn [urls codes].
  rewrite (array_find_ref_middle _ pre post r);
    [| by apply not_in_codes | by apply bool_decide_eq_true].
  by rewrite insert_middle, or_zero_id.
Qed.

(** One call with a code that no record has. *)
Lemma registerClick_unknown c db tr :
  c ∉ code <$> urls db →
  registerClick c (ready db tr)
  = (Return (), ready db (tr ++ [EvLock; EvRead; EvUnlock])).
Proof.
  intros Hc. rewrite registerClick_ready.
  by rewrite (proj2 (array_find_ref_None _ _) (proj1 (not_in_codes _ _) Hc)).
Qed.

Lemma repeatClick_found K c pre r post cs tr :
  code r = c → c ∉ code <$> pre →
  ∃ tr',
    repeatClick K c (ready (mkDB (pre ++ r :: post) cs) tr)
    = (Return (),
       ready (mkDB (pre ++ with_clicks (clicks r + Z.of_nat K) r :: post) cs) tr').
Proof.
  intros Hr Hpre. revert r tr Hr.
  induction K as [|K IH]; intros r tr Hr.
  - exists tr. cbn. unfold ret. by rewrite Z.add_0_r, with_clicks_id.
  - cbn [repeatClick].
    erewrite bind_Return by (by apply registerClick_found).
    destruct (IH (with_clicks (clicks r + 1) r)
                 (tr ++ [EvLock; EvRead; EvUnlock; EvLock; EvWrite; EvUnlock]) Hr)
      as [tr' ->].
    exists tr'. unfold with_clicks. cbn [original short code createdAt clicks].
    by replace (clicks r + 1 + Z.of_nat K) with (clicks r + Z.of_nat (S K)) by lia.
Qed.

(** C6 (as stated, refuted). After [saveUrl] has stored [example_again]
    under the code of [example_record], the store contains a record with the
    code ["ab12cd"] whose counter is 0, namely [example_again]. Three calls
    of [registerClick("ab12cd")] leave that record at 0: the three clicks go
    to [example_record], the first record with the code, which goes from 3
    to 6. *)
Lemma registerClick_later_duplicate_counterexample :
  urls <$> store_of twice_coded = Some [example_record; example_again] ∧
  code example_again = "ab12cd" ∧
  clicks example_again = 0 ∧
  (repeatClick 3 "ab12cd" twice_coded).1 = Return () ∧
  urls <$> store_of (repeatClick 3 "ab12cd" twice_coded).2
    = Some [with_clicks 6 example_record; example_again] ∧
  clicks example_again ≠ 3.
Proof. by split_and!. Qed.

(** C6 (amended). On a store whose first record with the code [c] (the
    record that the lookup of [registerClick] selects; the only one with the
    code when codes are unique) has [clicks = 0], [K] successive calls of
    [registerClick(c)] all return normally and leave the store as it was
    except that this record has [clicks = K]; a later record with the same
    code is not touched. With a code that no record has, the call returns
    normally and the store is unchanged. *)
Theorem registerClick_counts (K : nat) (c : string) (pre post : list UrlData)
    (r : UrlData) (cs : gmap string string) (db : DB) (tr : list Event) :
  (code r = c → c ∉ code <$> pre → clicks r = 0 →
   ∃ tr',
     repeatClick K c (ready (mkDB (pre ++ r :: post) cs) tr)
     = (Return (),
        ready (mkDB (pre ++ with_clicks (Z.of_nat K) r :: post) cs) tr'))
  ∧
  (c ∉ code <$> urls db →
   ∃ tr', registerClick c (ready db tr) = (Return (), ready db tr')).
Proof.
  split.
  - intros Hr Hpre Hz.
    destruct (repeatClick_found K c pre r post cs tr Hr Hpre) as [tr' ->].
    exists tr'. by rewrite Hz, Z.add_0_l.
  - intros Hc. eexists. by apply registerClick_unknown.
Qed.

Lemma registerClick_counts_witness :
  (∃ tr',
     repeatClick 3 "ab12cd"
       (ready (mkDB ([example_other] ++ example_again :: [])
                    {[ "ab12cd" := "https://example.com/" ]}) [])
     = (Return (),
        ready (mkDB ([example_other] ++ with_clicks 3 example_again :: [])
                    {[ "ab12cd" := "https://example.com/" ]}) tr'))
  ∧
  (∃ tr', registerClick "nosuch" (ready example_store [])
          = (Return (), ready example_store tr')).
Proof.
  destruct (registerClick_counts 3 "ab12cd" [example_other] [] example_again
              {[ "ab12cd" := "https://example.com/" ]} example_store [])
    as [Hfound _].
  destruct (registerClick_counts 0 "nosuch" [] [] example_again ∅
              example_store []) as [_ Hunknown].
  split.
  - apply Hfound; [done | | done].
    by apply not_in_codes; repeat constructor.
  - apply Hunknown. by apply not_in_codes; repeat constructor.
Defined.

(** ** The lock after an operation *)

(** Case analysis on a world: no directory; or a directory with the lock
    taken or free, and the file absent, unparseable or holding a store. *)
Ltac world_cases w :=
  let tr := fresh "tr" in
  let text := fresh "text" in
  let db := fresh "db" in
  destruct w as [[[[[text|db]|] [|]]|] tr].



(** [readDB] never changes the data file. *)
Lemma readDB_file w : data_file (readDB w).2 = data_file w.
Proof. by world_cases w. Qed.






(** ** [initDB] *)

(** C9. [initDB] always returns normally and leaves the directory in place.
    A data file that exists keeps its content, whatever it is (a populated
    store, or text that is not JSON); a missing one is created holding the
    empty store. A second call changes nothing. *)
Theorem initDB_keeps_existing_file (w : World) :
  (initDB w).1 = Return () ∧
  is_Some (data_dir (initDB w).2) ∧
  data_file (initDB w).2
    = match data_file w with
      | Some content => Some content
      | None => Some (Stored emptyDB)
      end ∧
  data_dir (initDB (initDB w).2).2 = data_dir (initDB w).2.
Proof. world_cases w; by split_and!. Qed.

(** ** [readDB] on a file that is missing or is not JSON *)

(** C3 (as stated, refuted). With a data file whose text is not JSON,
    [findCode] does not return [undefined]: it throws the SyntaxError of
    [JSON.parse]. *)
Lemma findCode_unparseable_counterexample :
  (findCode "ab12cd"
     (mkWorld (Some (mkDir (Some (Unparseable "{ urls: [")) false)) [])).1
  = Throw SyntaxError.
Proof. reflexivity. Qed.

(** C3 (amended). The empty store is substituted when the data file cannot
    be read, here when it does not exist: [readDB] returns
    [{ urls: [], codes: {} }] and [findCode] finds no own property in it
    (for a name that plain objects inherit, such as ["constructor"], the
    lookup yields the inherited member; for any other code, [undefined]);
    no file is created. A file that is read but is not JSON makes [readDB]
    and [findCode] throw the SyntaxError of [JSON.parse]; the file keeps
    its text and the lock is released. *)
Theorem readDB_fallback_is_for_read_failure (c : string) (tr : list Event) :
  (readDB (mkWorld (Some (mkDir None false)) tr)).1 = Return emptyDB ∧
  (findCode c (mkWorld (Some (mkDir None false)) tr)).1
    = Return (if bool_decide (c ∈ Object_prototype) then Inherited c
              else Undefined) ∧
  data_file (findCode c (mkWorld (Some (mkDir None false)) tr)).2 = None ∧
  (∀ text,
     (readDB (mkWorld (Some (mkDir (Some (Unparseable text)) false)) tr)).1
       = Throw SyntaxError ∧
     (findCode c (mkWorld (Some (mkDir (Some (Unparseable text)) false)) tr)).1
       = Throw SyntaxError ∧
     data_file
       (findCode c (mkWorld (Some (mkDir (Some (Unparseable text)) false)) tr)).2
       = Some (Unparseable text) ∧
     lock_held
       (findCode c (mkWorld (Some (mkDir (Some (Unparseable text)) false)) tr)).2
       = false).
Proof. by split_and!. Qed.

(** ** Critical sections *)

(** What the predicate accepts: lock, read, write, unlock. *)
Example single_critical_section_shape :
  single_critical_section [EvLock; EvRead; EvWrite; EvUnlock] = true.
Proof. reflexivity. Qed.

(** C4 (as stated, refuted). Neither [saveUrl] nor [registerClick] on a
    known code runs in one critical section: the lock is taken twice, and
    released between the read and the write. *)
Lemma two_critical_sections_counterexample :
  trace (saveUrl example_other (ready example_store [])).2
    = [EvLock; EvRead; EvUnlock; EvLock; EvWrite; EvUnlock] ∧
  single_critical_section
    (trace (saveUrl example_other (ready example_store [])).2) = false ∧
  trace (registerClick "ab12cd" (ready example_store [])).2
    = [EvLock; EvRead; EvUnlock; EvLock; EvWrite; EvUnlock] ∧
  single_critical_section
    (trace (registerClick "ab12cd" (ready example_store [])).2) = false.
Proof. rewrite saveUrl_ready, registerClick_ready. by split_and!. Qed.

(** C4 (amended). The lock protects each file access, not the whole
    read-modify-write: [saveUrl], and [registerClick] on a code some record
    has, take the lock, read, release, change the store in memory with the
    lock free, then take the lock again, write and release.
    [registerClick] on a code no record has only takes the lock, reads and
    releases. *)
Theorem mutations_lock_twice (d : UrlData) (c : string) (db : DB)
    (tr : list Event) :
  trace (saveUrl d (ready db tr)).2
    = tr ++ [EvLock; EvRead; EvUnlock; EvLock; EvWrite; EvUnlock] ∧
  trace (registerClick c (ready db tr)).2
    = tr ++ (if bool_decide (c ∈ code <$> urls db)
             then [EvLock; EvRead; EvUnlock; EvLock; EvWrite; EvUnlock]
             else [EvLock; EvRead; EvUnlock]).
Proof.
  split; [by rewrite saveUrl_ready|].
  rewrite registerClick_ready.
  destruct (array_find_ref _ _) as [[i url]|] eqn:Hfind.
  - rewrite bool_decide_eq_true_2; [done|].
    apply list_find_Some in Hfind as (Hi & Hcode & _).
    apply bool_decide_eq_true in Hcode. subst c.
    apply list_elem_of_fmap. eauto using list_elem_of_lookup_2.
  - rewrite bool_decide_eq_false_2; [done|].
    by apply not_in_codes, array_find_ref_None.
Qed.

(** ** Uniqueness of codes and of original URLs *)

Lemma unique_store_empty : unique_store emptyDB.
Proof. split; constructor. Qed.

Lemma unique_store_snoc db d cs :
  unique_store db →
  original d ∉ original <$> urls db → code d ∉ code <$> urls db →
  unique_store (mkDB (urls db ++ [d]) cs).
Proof.
  intros [Hc Ho] Hod Hcd. split; cbn [urls]; rewrite fmap_app; cbn.
  - apply NoDup_app. split_and!; [done | | by apply NoDup_singleton].
    intros x Hx ->%list_elem_of_singleton. done.
  - apply NoDup_app. split_and!; [done | | by apply NoDup_singleton].
    intros x Hx ->%list_elem_of_singleton. done.
Qed.

Lemma unique_store_click db i url n cs :
  unique_store db → urls db !! i = Some url →
  unique_store (mkDB (<[i:=with_clicks n url]> (urls db)) cs).
Proof.
  intros [Hc Ho] Hi. split; cbn [urls]; rewrite list_fmap_insert.
  - rewrite list_insert_id; [done|]. by rewrite list_lookup_fmap, Hi.
  - rewrite list_insert_id; [done|]. by rewrite list_lookup_fmap, Hi.
Qed.

(** C2 (as stated, refuted). Calling [initDB] and then [saveUrl] twice with
    the same record is a sequence of storage operations, and it leaves a
    store with two records sharing their code and their original URL. *)
Lemma uniqueness_counterexample :
  reachable twice_saved ∧
  urls <$> store_of twice_saved = Some [example_record; example_record] ∧
  ¬ world_unique twice_saved.
Proof.
  assert (urls <$> store_of twice_saved = Some [example_record; example_record])
    as Hurls by reflexivity.
  split_and!; [repeat constructor | done |].
  unfold world_unique. destruct (store_of twice_saved) as [db|]; [|done].
  injection Hurls as Hurls. intros [Hc _]. rewrite Hurls in Hc.
  apply NoDup_cons in Hc as [Hc _]. apply Hc. by left.
Qed.

(** C2 (amended). [initDB], [findUrl], [findCode] and [registerClick]
    preserve uniqueness of codes and of original URLs in every world, and so
    does [saveUrl] when it is called with a record whose original URL and
    code no stored record has. *)
Theorem uniqueness_preserved (op : Op) (w : World) :
  world_unique w → guarded op w → world_unique (exec op w).
Proof.
  intros Hw Hg. destruct op as [|u|c|d|c]; cbn [exec guarded] in *.
  - by world_cases w; try apply unique_store_empty.
  - by world_cases w.
  - by world_cases w.
  - world_cases w; try done.
    + change (mkWorld _ tr) with (ready db tr). rewrite saveUrl_ready.
      destruct Hg as [Ho Hc]. by apply unique_store_snoc.
    + split; cbn; apply NoDup_singleton.
  - world_cases w; try done.
    change (mkWorld _ tr) with (ready db tr). rewrite registerClick_ready.
    destruct (array_find_ref _ _) as [[i url]|] eqn:Hfind; [|done].
    apply list_find_Some in Hfind as (Hi & _ & _).
    by apply (unique_store_click db i url).
Qed.

Lemma uniqueness_preserved_witness :
  world_unique (exec (OpSaveUrl example_other) (ready example_store [])).
Proof.
  apply uniqueness_preserved.
  - split; cbn; apply NoDup_singleton.
  - split; cbn; by intros ?%list_elem_of_singleton.
Defined.

(** ** Code generation *)

Lemma substring_length (s : string) (n m : nat) :
  String.length (String.substring n m s) = Nat.min m (String.length s - n).
Proof.
  revert n m. induction s as [|ch s IH]; intros [|n] [|m];
    cbn [String.substring String.length]; rewrite ?IH; lia.
Qed.

(** A generated code has six characters only when the printed random number
    has at least six digits after ["0."]; otherwise it has as many as there
    are. *)
Lemma generateCode_length (r : string) :
  String.length (generateCode r) = Nat.min 6 (String.length r - 2).
Proof. unfold generateCode, js_substring. rewrite substring_length. lia. Qed.

Lemma substring_0_min (s : string) (m : nat) :
  String.substring 0 (Nat.min m (String.length s)) s = String.substring 0 m s.
Proof.
  revert m. induction s as [|ch s IH]; intros [|m];
    cbn [String.substring String.length Nat.min]; by rewrite ?IH.
Qed.

(** The code is made of the first digits printed after ["0."], six of them
    at most. *)
Lemma generateCode_digits (digits : string) :
  generateCode ("0." +:+ digits) = String.substring 0 6 digits.
Proof.
  unfold generateCode, js_substring. cbv zeta.
  change (String.length ("0." +:+ digits)) with (S (S (String.length digits))).
  set (n := String.length digits).
  replace (Nat.min (Nat.min 2 (S (S n))) (Nat.min 8 (S (S n)))) with 2%nat by lia.
  replace (Nat.max (Nat.min 2 (S (S n))) (Nat.min 8 (S (S n))) - 2)%nat
    with (Nat.min 6 n) by lia.
  subst n. exact (substring_0_min digits 6).
Qed.

(** C5 (the code falls short of it). [Math.random()] can return [0.5],
    which [toString(36)] prints as ["0.i"]: the generated code is then
    ["i"], one character long instead of six. When [Math.random()] returns
    [0], printed ["0"], the generated code is the empty string. *)
Theorem generateCode_short_code :
  toString36 1 2 = "0.i" ∧
  generateCode (toString36 1 2) = "i" ∧
  String.length (generateCode (toString36 1 2)) = 1%nat ∧
  toString36 0 1 = "0" ∧
  generateCode (toString36 0 1) = "".
Proof. by split_and!. Qed.

(** ** The shorten flow *)

Lemma first_free_Exists cs randoms :
  Exists (λ r, truthy (get_property cs (generateCode r)) = false) randoms →
  is_Some (first_free cs randoms).
Proof.
  induction 1 as [r randoms Hr | r randoms _ IH]; cbn.
  - by rewrite Hr.
  - by destruct (truthy _).
Qed.

Lemma try_catch_Return {A} (m : M A) (h : JsError → M A) w a w' :
  m w = (Return a, w') → try_catch m h w = (Return a, w').
Proof. unfold try_catch. by intros ->. Qed.

Section HandlerProperties.

Variable BASE_URL : string.
Variable validateUrl : string → Outcome string.

Lemma pickCode_ready randoms db tr :
  ∃ tr',
    pickCode randoms (ready db tr)
    = (Return (first_free (codes db) randoms), ready db tr').
Proof.
  revert tr. induction randoms as [|r randoms IH]; intros tr;
    cbn [pickCode first_free].
  - by exists tr.
  - erewrite bind_Return by apply findCode_ready.
    destruct (truthy _); [apply IH | by eexists].
Qed.

(** The URL is already stored: the first record holding it is returned and
    the store is untouched. *)
Lemma shorten_existing url v now randoms pre r post cs tr :
  url ≠ "" → validateUrl url = Return v →
  original r = v → v ∉ original <$> pre →
  shorten BASE_URL validateUrl url now randoms
    (ready (mkDB (pre ++ r :: post) cs) tr)
  = (Return (Some (mkResponse 200
                     (LinkBody (original r) (short r) (code r)))),
     ready (mkDB (pre ++ r :: post) cs) (tr ++ [EvLock; EvRead; EvUnlock])).
Proof.
  intros Hurl Hv Hr Hpre. unfold shorten. apply try_catch_Return.
  rewrite bool_decide_eq_false_2 by done.
  erewrite bind_Return by (unfold lift; by rewrite Hv).
  erewrite bind_Return by apply findUrl_ready.
  cbn [urls]. unfold array_find.
  rewrite (array_find_ref_middle _ pre post r);
    [done | by apply not_in_originals | by apply bool_decide_eq_true].
Qed.

(** The URL is not stored yet and the loop finds the code [c]: a record is
    appended and reported with status 201. *)
Lemma shorten_new url v now randoms c db tr :
  url ≠ "" → validateUrl url = Return v →
  v ∉ original <$> urls db →
  first_free (codes db) randoms = Some c →
  ∃ tr',
    shorten BASE_URL validateUrl url now randoms (ready db tr)
    = (Return (Some (mkResponse 201
                       (LinkBody v (BASE_URL +:+ "/r/" +:+ c) c))),
       ready (mkDB (urls db ++ [mkUrlData v (BASE_URL +:+ "/r/" +:+ c) c now 0])
                   (set_property (codes db) c v)) tr').
Proof.
  intros Hurl Hv Hfresh Hfree. unfold shorten.
  destruct (pickCode_ready randoms db (tr ++ [EvLock; EvRead; EvUnlock]))
    as [tr1 Hpick].
  eexists. apply try_catch_Return.
  rewrite bool_decide_eq_false_2 by done.
  erewrite bind_Return by (unfold lift; by rewrite Hv).
  erewrite bind_Return by apply findUrl_ready.
  unfold array_find.
  rewrite (proj2 (array_find_ref_None _ _) (proj1 (not_in_originals _ _) Hfresh)).
  cbn [fmap option_fmap option_map].
  erewrite bind_Return by apply Hpick. rewrite Hfree.
  erewrite bind_Return by apply saveUrl_ready.
  reflexivity.
Qed.

(** C7. For a URL that is not stored yet (and a supply of random numbers in
    which some code is free), two successive runs of the shorten handler
    with that URL both answer with the same record [r]: the first run
    appends it (status 201), the second finds it (status 200) and appends
    nothing, so the record sequence is one record longer after the two
    runs. *)
Theorem shorten_twice_same_record (url v now1 now2 : string)
    (randoms1 randoms2 : list string) (db : DB) (tr : list Event) :
  url ≠ "" → validateUrl url = Return v →
  v ∉ original <$> urls db →
  Exists (λ r, truthy (get_property (codes db) (generateCode r)) = false)
         randoms1 →
  ∃ r resp1 db1 tr1 resp2 db2 tr2,
    shorten BASE_URL validateUrl url now1 randoms1 (ready db tr)
      = (Return (Some resp1), ready db1 tr1) ∧
    shorten BASE_URL validateUrl url now2 randoms2 (ready db1 tr1)
      = (Return (Some resp2), ready db2 tr2) ∧
    body resp1 = LinkBody (original r) (short r) (code r) ∧
    body resp2 = LinkBody (original r) (short r) (code r) ∧
    original r = v ∧
    urls db1 = urls db ++ [r] ∧
    urls db2 = urls db ++ [r] ∧
    length (urls db2) = S (length (urls db)).
Proof.
  intros Hurl Hv Hfresh [c Hfree]%first_free_Exists.
  destruct (shorten_new url v now1 randoms1 c db tr Hurl Hv Hfresh Hfree)
    as [tr1 Hfirst].
  pose (r := mkUrlData v (BASE_URL +:+ "/r/" +:+ c) c now1 0).
  eexists r, _, _, _, _, _, _. split_and!.
  - apply Hfirst.
  - cbn [urls]. by apply (shorten_existing url v now2 randoms2 (urls db) r []).
  - done.
  - done.
  - done.
  - done.
  - done.
  - cbn [urls]. rewrite length_app. cbn. lia.
Qed.

End HandlerProperties.

Lemma shorten_twice_same_record_witness :
  ∃ r resp1 db1 tr1 resp2 db2 tr2,
    shorten "https://sho.rt" Return "https://example.org/" "2024-03-03" ["0.i"; "0.4fzyo82mvyr"]
      (ready example_store [])
      = (Return (Some resp1), ready db1 tr1) ∧
    shorten "https://sho.rt" Return "https://example.org/" "2024-03-04" []
      (ready db1 tr1)
      = (Return (Some resp2), ready db2 tr2) ∧
    body resp1 = LinkBody (original r) (short r) (code r) ∧
    body resp2 = LinkBody (original r) (short r) (code r) ∧
    original r = "https://example.org/" ∧
    urls db1 = urls example_store ++ [r] ∧
    urls db2 = urls example_store ++ [r] ∧
    length (urls db2) = S (length (urls example_store)).
Proof.
  apply (shorten_twice_same_record "https://sho.rt" Return); [done | done | |].
  - by intros ?%list_elem_of_singleton.
  - by left.
Defined.

(** * Further properties of the storage functions *)

(** ** The primitives in worlds that are not in working order *)

(** X1. With the directory in place and the lock free, whatever the data
    file was (absent, not JSON, another store), what [writeDB] writes is what
    the next [readDB] returns, and the lock is free again. *)
Theorem writeDB_readDB_roundtrip (data : DB) (content : option FileContent)
    (tr : list Event) :
  (await writeDB data; readDB) (idle content tr)
  = (Return data,
     ready data (tr ++ [EvLock; EvWrite; EvUnlock] ++ read_section)).
Proof.
  destruct content as [[text|db]|]; unfold readDB, writeDB, idle; run_js;
    by rewrite <- !app_assoc.
Qed.

(** X2. When the lock file exists, [readDB] and [writeDB] give up with
    EEXIST and leave the data file as it is, but their [finally] block
    removes the lock file that somebody else created: the next [lock]
    succeeds although the holder never released it. *)
Theorem failed_lock_removes_the_lock (data : DB) (content : option FileContent)
    (tr : list Event) :
  readDB (contended content tr)
    = (Throw EEXIST, idle content (tr ++ [EvLockFailed; EvUnlock])) ∧
  writeDB data (contended content tr)
    = (Throw EEXIST, idle content (tr ++ [EvLockFailed; EvUnlock])) ∧
  (lock (readDB (contended content tr)).2).1 = Return () ∧
  (lock (writeDB data (contended content tr)).2).1 = Return ().
Proof.
  unfold readDB, writeDB, contended, idle; run_js.
  by rewrite <- !app_assoc.
Qed.

(** X3. Without the [data] directory (before [initDB] ever ran) the four
    operations throw ENOENT, the fallback to the empty store does not apply,
    and nothing is created. *)
Theorem no_directory_no_service (u c : string) (d : UrlData) (tr : list Event) :
  (findUrl u (mkWorld None tr)).1 = Throw ENOENT ∧
  (findCode c (mkWorld None tr)).1 = Throw ENOENT ∧
  (saveUrl d (mkWorld None tr)).1 = Throw ENOENT ∧
  (registerClick c (mkWorld None tr)).1 = Throw ENOENT ∧
  data_dir (findUrl u (mkWorld None tr)).2 = None ∧
  data_dir (findCode c (mkWorld None tr)).2 = None ∧
  data_dir (saveUrl d (mkWorld None tr)).2 = None ∧
  data_dir (registerClick c (mkWorld None tr)).2 = None.
Proof. by split_and!. Qed.

(** X4. A data file that is not JSON is never overwritten: [saveUrl] and
    [registerClick] throw the SyntaxError of their [readDB] before any write,
    and the file keeps its text. *)
Theorem unparseable_file_is_kept (text c : string) (d : UrlData)
    (tr : list Event) :
  saveUrl d (idle (Some (Unparseable text)) tr)
    = (Throw SyntaxError, idle (Some (Unparseable text)) (tr ++ read_section)) ∧
  registerClick c (idle (Some (Unparseable text)) tr)
    = (Throw SyntaxError, idle (Some (Unparseable text)) (tr ++ read_section)).
Proof.
  unfold saveUrl, registerClick, readDB, idle, read_section; run_js.
  by rewrite <- !app_assoc.
Qed.

(** X5. With the directory in place but no data file, [saveUrl] starts from
    the empty store: it creates the file, holding just the saved record;
    [findUrl] finds nothing and [registerClick] does nothing, and neither
    creates the file. *)
Theorem missing_file_behaves_as_empty_store (u c : string) (d : UrlData)
    (tr : list Event) :
  saveUrl d (idle None tr)
    = (Return d,
       ready (mkDB [d] (set_property ∅ (code d) (original d)))
             (tr ++ read_section ++ [EvLock; EvWrite; EvUnlock])) ∧
  findUrl u (idle None tr) = (Return None, idle None (tr ++ read_section)) ∧
  registerClick c (idle None tr) = (Return (), idle None (tr ++ read_section)).
Proof.
  unfold saveUrl, findUrl, registerClick, writeDB, readDB, idle, read_section;
    run_js.
  by rewrite <- !app_assoc.
Qed.

(** X6. The lookups are read-only in every world: whether they return or
    throw, [findUrl] and [findCode] leave the data file exactly as it was
    (absent files stay absent), and they never create the directory. *)
Theorem lookups_never_write (u c : string) (w : World) :
  data_file (findUrl u w).2 = data_file w ∧
  data_file (findCode c w).2 = data_file w ∧
  (is_Some (data_dir (findUrl u w).2) ↔ is_Some (data_dir w)) ∧
  (is_Some (data_dir (findCode c w).2) ↔ is_Some (data_dir w)) ∧
  (∃ evs, trace (findUrl u w).2 = trace w ++ evs ∧ EvWrite ∉ evs) ∧
  (∃ evs, trace (findCode c w).2 = trace w ++ evs ∧ EvWrite ∉ evs).
Proof.
  world_cases w; cbn; split_and!; try done.
  all: eexists; (split; [by rewrite <- ?app_assoc |]).
  all: repeat (apply not_elem_of_cons; split; [done|]); apply not_elem_of_nil.
Qed.

(** X7. [initDB] makes the store usable: run on start-up with no directory,
    or with a directory and no file, the next [readDB] returns the empty
    store from the file just created; with a store already on disk, the next
    [readDB] returns that store. *)
Theorem initDB_then_readDB (db : DB) (tr : list Event) :
  (await initDB; readDB) (mkWorld None tr)
    = (Return emptyDB, ready emptyDB (tr ++ [EvWrite] ++ read_section)) ∧
  (await initDB; readDB) (idle None tr)
    = (Return emptyDB, ready emptyDB (tr ++ [EvWrite] ++ read_section)) ∧
  (await initDB; readDB) (ready db tr)
    = (Return db, ready db (tr ++ read_section)).
Proof.
  unfold initDB, readDB, idle, read_section; run_js.
  by rewrite <- !app_assoc.
Qed.

(** ** Saving and looking up *)

Lemma array_find_ref_split {A} (p : A → bool) (l : list A) (i : nat) (x : A) :
  array_find_ref p l = Some (i, x) →
  ∃ pre post,
    l = pre ++ x :: post ∧ length pre = i ∧
    Forall (λ y, p y = false) pre ∧ p x = true.
Proof.
  intros (Hi & Hx & Hleast)%list_find_Some.
  exists (take i l), (drop (S i) l). split_and!; [| | | done].
  - by rewrite take_drop_middle.
  - apply length_take_le. apply lookup_lt_Some in Hi. lia.
  - apply Forall_lookup. intros j y [Hj Hlt]%lookup_take_Some.
    specialize (Hleast j y Hj Hlt). by destruct (p y).
Qed.

Lemma set_property_lookup cs c v :
  c ≠ "__proto__" → set_property cs c v !! c = Some v.
Proof.
  intros Hc. unfold set_property.
  rewrite bool_decide_eq_false_2 by (by intros [? _]).
  apply lookup_insert_eq.
Qed.

Lemma set_property_lookup_ne cs c c' v :
  c' ≠ c → set_property cs c v !! c' = cs !! c'.
Proof.
  intros Hc. unfold set_property. case_bool_decide; [done|].
  by apply lookup_insert_ne.
Qed.

(** X8. What is saved can be looked up by code: after [saveUrl], [findCode]
    on the saved code returns the saved original URL (for every code but
    [__proto__]), and the lookup of every other code is as before. *)
Theorem saveUrl_then_findCode (d : UrlData) (c' : string) (db : DB)
    (tr : list Event) :
  code d ≠ "__proto__" →
  ((await saveUrl d; findCode c') (ready db tr)).1
  = if bool_decide (c' = code d) then Return (JsString (original d))
    else (findCode c' (ready db tr)).1.
Proof.
  intros Hc. erewrite !bind_Return by apply saveUrl_ready.
  rewrite !findCode_ready. cbn [fst codes]. unfold get_property.
  destruct (decide (c' = code d)) as [->|Hne].
  - rewrite (bool_decide_eq_true_2 (code d = code d)) by done.
    by rewrite set_property_lookup.
  - rewrite (bool_decide_eq_false_2 (c' = code d)) by done.
    by rewrite set_property_lookup_ne.
Qed.

Lemma saveUrl_then_findCode_witness :
  ((await saveUrl example_other; findCode "zz99yy") (ready example_store [])).1
  = if bool_decide ("zz99yy" = code example_other)
    then Return (JsString (original example_other))
    else (findCode "zz99yy" (ready example_store [])).1.
Proof. by apply (saveUrl_then_findCode example_other "zz99yy"). Defined.

(** X9. What is saved can be looked up by URL, unless an older record has
    the URL: after [saveUrl d], [findUrl] on the original URL of [d] returns
    the record it returned before the save when there was one, and [d]
    otherwise. *)
Theorem saveUrl_then_findUrl (d : UrlData) (db : DB) (tr : list Event) :
  ((await saveUrl d; findUrl (original d)) (ready db tr)).1
  = Return (match (findUrl (original d) (ready db tr)).1 with
            | Return (Some older) => Some older
            | _ => Some d
            end).
Proof.
  erewrite bind_Return by apply saveUrl_ready.
  rewrite !findUrl_ready. cbn [fst urls]. f_equal. unfold array_find.
  destruct (array_find_ref _ (urls db)) as [[i older]|] eqn:Hfind.
  - unfold array_find_ref in *. by erewrite list_find_app_l.
  - apply array_find_ref_None in Hfind.
    rewrite (array_find_ref_middle _ (urls db) [] d);
      [done | done | by apply bool_decide_eq_true].
Qed.

(** ** The index *)

Lemma well_indexed_snoc db d :
  well_indexed db → code d ≠ "__proto__" → code d ∉ code <$> urls db →
  well_indexed (mkDB (urls db ++ [d])
                     (set_property (codes db) (code d) (original d))).
Proof.
  intros Hdb Hproto Hfresh r [Hr | ->%list_elem_of_singleton]%elem_of_app;
    cbn [codes].
  - rewrite set_property_lookup_ne; [by apply Hdb|].
    intros Heq. apply Hfresh. rewrite <- Heq. by apply list_elem_of_fmap_2.
  - by apply set_property_lookup.
Qed.

Lemma well_indexed_click db i url :
  well_indexed db →
  array_find_ref (λ item, bool_decide (code item = code url)) (urls db)
    = Some (i, url) →
  ∀ n, well_indexed (mkDB (<[i:=with_clicks n url]> (urls db)) (codes db)).
Proof.
  intros Hdb (pre & post & Hurls & <- & _ & _)%array_find_ref_split n r.
  cbn [urls codes]. rewrite Hurls, insert_middle.
  intros [Hr | [-> | Hr]%elem_of_cons]%elem_of_app.
  - apply Hdb. rewrite Hurls. apply elem_of_app. by left.
  - apply (Hdb url). rewrite Hurls. apply elem_of_app. right. by left.
  - apply Hdb. rewrite Hurls. apply elem_of_app. right. by right.
Qed.

(** X10. Agreement of the index with the records (every record's code is
    mapped to that record's original URL) is kept by [initDB], [findUrl],
    [findCode] and [registerClick] in every world, and by [saveUrl] when the
    saved code is not [__proto__] and no stored record has it. *)
Theorem index_agreement_preserved (op : Op) (w : World) :
  world_indexed w → index_guarded op w → world_indexed (exec op w).
Proof.
  intros Hw Hg. destruct op as [|u|c|d|c]; cbn [exec index_guarded] in *.
  - world_cases w; try done. all: by intros r ?%elem_of_nil.
  - by world_cases w.
  - by world_cases w.
  - destruct Hg as [Hproto Hfresh]. world_cases w; try done.
    + change (mkWorld _ tr) with (ready db tr). rewrite saveUrl_ready.
      by apply well_indexed_snoc.
    + intros r ->%list_elem_of_singleton. by apply set_property_lookup.
  - world_cases w; try done.
    change (mkWorld _ tr) with (ready db tr). rewrite registerClick_ready.
    destruct (array_find_ref _ _) as [[i url]|] eqn:Hfind; [|done].
    assert (code url = c) as <-.
    { apply list_find_Some in Hfind as (_ & Hc & _).
      by apply bool_decide_eq_true in Hc. }
    by apply (well_indexed_click db i url).
Qed.

Lemma index_agreement_preserved_witness :
  world_indexed (exec (OpSaveUrl example_other) (ready example_store [])).
Proof.
  apply index_agreement_preserved.
  - intros r ->%list_elem_of_singleton. reflexivity.
  - split; [done|]. cbn. by intros ?%list_elem_of_singleton.
Defined.

(** ** Clicks *)

Lemma total_clicks_middle pre r post cs :
  total_clicks (mkDB (pre ++ r :: post) cs)
  = total_clicks (mkDB pre cs) + clicks r + total_clicks (mkDB post cs).
Proof.
  unfold total_clicks. cbn [urls]. rewrite fmap_app, foldr_app. cbn.
  induction (clicks <$> pre) as [|n ns IH]; cbn; lia.
Qed.

(** X11. One [registerClick] call on a store whose counters are integers
    from 0 up to (not including) 2^53, the range where the [+ 1] of the code
    is exact: the clicks of the store add up to one more when some record
    has the code and to the same when none has, and no counter becomes
    negative; the index, the number and order of the records and every
    field but [clicks] are unchanged. *)
Theorem registerClick_adds_one_click (c : string) (db : DB) (tr : list Event) :
  Forall (λ r, (0 ≤ clicks r < 2 ^ 53)%Z) (urls db) →
  ∃ db' tr',
    registerClick c (ready db tr) = (Return (), ready db' tr') ∧
    codes db' = codes db ∧
    identity_of <$> urls db' = identity_of <$> urls db ∧
    total_clicks db'
      = total_clicks db + (if bool_decide (c ∈ code <$> urls db) then 1 else 0) ∧
    Forall (λ r, (0 ≤ clicks r ≤ 2 ^ 53)%Z) (urls db').
Proof.
  intros Hrange. rewrite registerClick_ready.
  destruct (array_find_ref _ _) as [[i url]|] eqn:Hfind.
  - apply array_find_ref_split in Hfind
      as (pre & post & Hurls & <- & Hpre & Hcode%bool_decide_eq_true).
    eexists _, _. split; [done|]. cbn [urls codes].
    rewrite bool_decide_eq_true_2
      by (rewrite Hurls, <- Hcode, fmap_app; apply elem_of_app; right; by left).
    destruct db as [l cs]. cbn [urls codes] in *. subst l.
    rewrite insert_middle, or_zero_id.
    apply Forall_app in Hrange as [Hbefore Hrest].
    apply Forall_cons in Hrest as [Hurl Hafter].
    split_and!; [done | | |].
    + by rewrite !fmap_app.
    + rewrite !total_clicks_middle. cbn [clicks]. lia.
    + apply Forall_app. split; [|apply Forall_cons; split].
      * eapply Forall_impl; [exact Hbefore|]. intros r Hr. cbn in Hr. lia.
      * cbn [clicks]. lia.
      * eapply Forall_impl; [exact Hafter|]. intros r Hr. cbn in Hr. lia.
  - eexists _, _. split; [done|].
    rewrite bool_decide_eq_false_2
      by (by apply not_in_codes, array_find_ref_None).
    split_and!; [done | done | lia |].
    eapply Forall_impl; [exact Hrange|]. intros r Hr. cbn in Hr. lia.
Qed.

Lemma registerClick_adds_one_click_witness :
  ∃ db' tr',
    registerClick "ab12cd" (ready example_store []) = (Return (), ready db' tr') ∧
    codes db' = codes example_store ∧
    identity_of <$> urls db' = identity_of <$> urls example_store ∧
    total_clicks db'
      = total_clicks example_store
        + (if bool_decide ("ab12cd" ∈ code <$> urls example_store) then 1 else 0) ∧
    Forall (λ r, (0 ≤ clicks r ≤ 2 ^ 53)%Z) (urls db').
Proof.
  apply registerClick_adds_one_click.
  repeat constructor; cbn; lia.
Defined.

(** ** Two calls in flight *)

Lemma saveUrl_split d w : saveUrl d w = (const db := await readDB; saveUrl_commit d db) w.
Proof. reflexivity. Qed.

Lemma registerClick_split c w :
  registerClick c w = (const db := await readDB; registerClick_commit c db) w.
Proof. reflexivity. Qed.

(** X12. Lost update. [saveUrl] is a read followed by a write of the whole
    store; when two calls read before either writes, both return their
    record, but the store written last is built on the store read before the
    first write: only the second record is stored, the first one is gone. *)
Theorem saveUrl_interleaved_loses_a_record (a b : UrlData) (db : DB)
    (tr : list Event) :
  ∃ tr',
    saveUrl_interleaved a b (ready db tr)
    = (Return (a, b),
       ready (mkDB (urls db ++ [b])
                   (set_property (codes db) (code b) (original b))) tr').
Proof.
  eexists. unfold saveUrl_interleaved, saveUrl_commit.
  erewrite bind_Return by apply readDB_ready.
  erewrite bind_Return by apply readDB_ready.
  cbn [urls codes].
  erewrite bind_Return
    by (erewrite bind_Return by apply writeDB_ready; reflexivity).
  erewrite bind_Return
    by (erewrite bind_Return by apply writeDB_ready; reflexivity).
  reflexivity.
Qed.

(** X13. Lost click. When two [registerClick] calls for the same code read
    before either writes, both return normally and the counter of the record
    goes up by one, not by two. *)
Theorem registerClick_interleaved_counts_once (c : string)
    (pre post : list UrlData) (r : UrlData) (cs : gmap string string)
    (tr : list Event) :
  code r = c → c ∉ code <$> pre →
  ∃ tr',
    registerClick_interleaved c c (ready (mkDB (pre ++ r :: post) cs) tr)
    = (Return (),
       ready (mkDB (pre ++ with_clicks (clicks r + 1) r :: post) cs) tr').
Proof.
  intros Hr Hpre. eexists. unfold registerClick_interleaved, registerClick_commit.
  erewrite bind_Return by apply readDB_ready.
  erewrite bind_Return by apply readDB_ready.
  cbn [urls codes].
  rewrite (array_find_ref_middle _ pre post r);
    [| by apply not_in_codes | by apply bool_decide_eq_true].
  rewrite insert_middle, or_zero_id.
  erewrite bind_Return by apply writeDB_ready.
  by rewrite writeDB_ready.
Qed.

Lemma registerClick_interleaved_counts_once_witness :
  ∃ tr',
    registerClick_interleaved "ab12cd" "ab12cd"
      (ready (mkDB ([example_other] ++ example_record :: []) ∅) [])
    = (Return (),
       ready (mkDB ([example_other]
                    ++ with_clicks (clicks example_record + 1) example_record
                    :: []) ∅) tr').
Proof.
  apply (registerClick_interleaved_counts_once "ab12cd" [example_other] []
           example_record ∅ []); [done|].
  by apply not_in_codes; repeat constructor.
Defined.

Lemma no_record_for_original (u : string) (l : list UrlData) :
  Forall (λ y, bool_decide (original y = u) = false) l →
  filter (λ r, original r = u) l = [].
Proof.
  induction 1 as [|r l Hr%bool_decide_eq_false _ IH]; [done|].
  by rewrite filter_cons_False.
Qed.

(** X14. Check then act. When the [findUrl] checks of two requests for the
    same new URL both run before either [saveUrl], both checks find nothing
    and the store ends with two records for that URL. *)
Theorem check_then_save_duplicates (u : string) (a b : UrlData) (db : DB)
    (tr : list Event) :
  u ∉ original <$> urls db → original a = u → original b = u →
  ∃ db' tr',
    check_then_save u a b (ready db tr) = (Return (None, None), ready db' tr') ∧
    urls db' = urls db ++ [a; b] ∧
    records_for_original u db' = 2%nat.
Proof.
  intros Hu Ha Hb. eexists _, _. unfold check_then_save.
  erewrite bind_Return by apply findUrl_ready.
  erewrite bind_Return by apply findUrl_ready.
  erewrite bind_Return by apply saveUrl_ready.
  erewrite bind_Return by apply saveUrl_ready.
  unfold array_find.
  rewrite (proj2 (array_find_ref_None _ _) (proj1 (not_in_originals _ _) Hu)).
  split; [reflexivity|]. cbn [urls]. rewrite <- app_assoc. split; [done|].
  unfold records_for_original. cbn [urls app].
  rewrite filter_app.
  replace (filter (λ r, original r = u) (urls db)) with (@nil UrlData).
  - rewrite !filter_cons_True, filter_nil by done. done.
  - symmetry. apply no_record_for_original. by apply not_in_originals.
Qed.

Lemma check_then_save_duplicates_witness :
  ∃ db' tr',
    check_then_save "https://example.org/" example_other example_other
      (ready example_store [])
    = (Return (None, None), ready db' tr') ∧
    urls db' = urls example_store ++ [example_other; example_other] ∧
    records_for_original "https://example.org/" db' = 2%nat.
Proof.
  apply check_then_save_duplicates; [|done..].
  by intros ?%list_elem_of_singleton.
Defined.

(** * Further properties of the handlers *)

(** ** Code generation *)

(** X15. A generated code never has more than six characters, and has six
    exactly when the printed random number has at least eight characters
    (["0."] and six digits). *)
Theorem generateCode_at_most_six (r : string) :
  (String.length (generateCode r) ≤ 6)%nat ∧
  (String.length (generateCode r) = 6%nat ↔ (8 ≤ String.length r)%nat).
Proof. rewrite generateCode_length. lia. Qed.

Lemma all_base36_substring (s : string) (n : nat) :
  all_base36 s = true → all_base36 (String.substring 0 n s) = true.
Proof.
  unfold all_base36. revert n.
  induction s as [|ch s IH]; intros [|n]; cbn; try done.
  intros [Hch Hs]%andb_prop. by rewrite Hch, (IH n Hs).
Qed.

(** X16. The characters of a generated code are characters that
    [toString(36)] printed after ["0."]: when those are base-36 digits
    ([0-9a-z]), so is every character of the code. *)
Theorem generateCode_base36 (digits : string) :
  all_base36 digits = true →
  all_base36 (generateCode ("0." +:+ digits)) = true.
Proof. intros H. rewrite generateCode_digits. by apply all_base36_substring. Qed.

Lemma generateCode_base36_witness :
  all_base36 (generateCode ("0." +:+ "4fzyo82mvyr")) = true.
Proof. apply generateCode_base36. reflexivity. Defined.

(** X17. A generated code is never the name of a member that plain objects
    inherit ([constructor], [__proto__], [toString], ...): those names all
    have more than six characters. So [db.codes[code]] for a generated code
    is either [undefined] or an own entry of the index, and assigning it
    always creates or overwrites an own entry. *)
Theorem generateCode_not_inherited (r : string) (cs : gmap string string)
    (v : string) :
  (generateCode r ∉ Object_prototype) ∧
  get_property cs (generateCode r)
    = match cs !! generateCode r with
      | Some o => JsString o
      | None => Undefined
      end ∧
  set_property cs (generateCode r) v = <[generateCode r:=v]> cs.
Proof.
  assert (Forall (λ name, (6 < String.length name)%nat) Object_prototype)
    as Hlong by (repeat constructor).
  assert (∀ name, name ∈ Object_prototype → generateCode r ≠ name) as Hname.
  { intros name Hin Heq. rewrite Forall_forall in Hlong.
    specialize (Hlong name Hin).
    pose proof (generateCode_length r) as Hlen. rewrite Heq in Hlen. lia. }
  assert (generateCode r ∉ Object_prototype) as Hnot.
  { intros Hin. by apply (Hname _ Hin). }
  split_and!; [done | |].
  - unfold get_property. by rewrite bool_decide_eq_false_2.
  - unfold set_property. rewrite bool_decide_eq_false_2; [done|].
    intros [Heq _]. apply (Hname "__proto__"); [|done].
    unfold Object_prototype. apply elem_of_cons. right. by left.
Qed.

(** ** The shorten handler *)

Lemma first_free_Some cs randoms c :
  first_free cs randoms = Some c →
  ∃ r, r ∈ randoms ∧ c = generateCode r ∧ truthy (get_property cs c) = false.
Proof.
  induction randoms as [|r randoms IH]; cbn [first_free]; [done|].
  destruct (truthy (get_property cs (generateCode r))) eqn:Htaken.
  - intros (r' & Hin & Hc & Hfree)%IH. exists r'. split_and!; [|done..].
    by right.
  - intros [= <-]. exists r. split_and!; [by left | done | done].
Qed.

(** X18. The generation loop tries the candidates in order and settles on
    the first one whose index entry is falsy: after [k] taken candidates it
    has made [k + 1] lookups, each in its own critical section, and it has
    not changed the store. Collisions are retried; they are never
    overwritten. *)
Theorem pickCode_skips_taken_codes (taken rest : list string) (r : string)
    (db : DB) (tr : list Event) :
  Forall (λ t, truthy (get_property (codes db) (generateCode t)) = true) taken →
  truthy (get_property (codes db) (generateCode r)) = false →
  pickCode (taken ++ r :: rest) (ready db tr)
  = (Return (Some (generateCode r)),
     ready db (tr ++ concat (replicate (S (length taken)) read_section))).
Proof.
  intros Htaken Hfree. revert tr.
  induction Htaken as [|t taken Ht _ IH]; intros tr; cbn [pickCode app].
  - erewrite bind_Return by apply findCode_ready. by rewrite Hfree.
  - erewrite bind_Return by apply findCode_ready. rewrite Ht, IH.
    cbn [length replicate concat]. unfold read_section.
    by rewrite <- !app_assoc.
Qed.

Lemma pickCode_skips_taken_codes_witness :
  pickCode (["0.ab12cdxyz"; "0.ab12cd"] ++ "0.zz99yyk" :: ["0.i"])
    (ready example_store [])
  = (Return (Some (generateCode "0.zz99yyk")),
     ready example_store
       ([] ++ concat (replicate (S (length ["0.ab12cdxyz"; "0.ab12cd"]))
                        read_section))).
Proof.
  apply pickCode_skips_taken_codes; [|reflexivity].
  repeat constructor.
Defined.

Section RequestProperties.

Variable BASE_URL : string.
Variable isURL : string → bool.
Variable URL_toString : string → option string.

(** X19. A request that is refused before the store is consulted: an empty
    (or missing) [originalUrl], a URL that [validator.isURL] rejects, or one
    on which [new URL] throws, is answered with status 400 and the message
    of that case; the data file, the lock and the directory are not
    touched, in whatever state they are. *)
Theorem shorten_refuses_without_storage (url now : string)
    (randoms : list string) (w : World) :
  (url = "" →
   shorten BASE_URL (validateUrl isURL URL_toString) url now randoms w
   = (Return (Some (mkResponse 400 (ErrorBody "Se requiere una URL"))), w)) ∧
  (url ≠ "" → isURL url = false →
   shorten BASE_URL (validateUrl isURL URL_toString) url now randoms w
   = (Return (Some (mkResponse 400
        (ErrorBody "URL inválida. Debe incluir http:// o https://"))), w)) ∧
  (url ≠ "" → isURL url = true → URL_toString url = None →
   shorten BASE_URL (validateUrl isURL URL_toString) url now randoms w
   = (Return (Some (mkResponse 400 (ErrorBody "URL mal formada"))), w)).
Proof.
  unfold shorten, validateUrl. split_and!.
  - intros ->. reflexivity.
  - intros Hurl Hbad. unfold try_catch, bind, lift.
    by rewrite bool_decide_eq_false_2, Hbad by done.
  - intros Hurl Hok Hthrows. unfold try_catch, bind, lift.
    by rewrite bool_decide_eq_false_2, Hok, Hthrows by done.
Qed.

(** X20. A failure of the store during a shorten request is reported as a
    client error: when the lock stays taken, when the data file is not JSON
    or when the directory is missing, the handler answers with status 400
    (not a 5xx status) and an error body, and nothing is written. A taken
    lock is removed on the way. *)
Theorem shorten_reports_storage_failure_as_400 (url v now text : string)
    (randoms : list string) (content : option FileContent) (tr : list Event) :
  url ≠ "" → validateUrl isURL URL_toString url = Return v →
  (∃ error,
     shorten BASE_URL (validateUrl isURL URL_toString) url now randoms
       (contended content tr)
     = (Return (Some (mkResponse 400 (ErrorBody error))),
        idle content (tr ++ [EvLockFailed; EvUnlock]))) ∧
  (∃ error,
     shorten BASE_URL (validateUrl isURL URL_toString) url now randoms
       (idle (Some (Unparseable text)) tr)
     = (Return (Some (mkResponse 400 (ErrorBody error))),
        idle (Some (Unparseable text)) (tr ++ read_section))) ∧
  (∃ error,
     shorten BASE_URL (validateUrl isURL URL_toString) url now randoms
       (mkWorld None tr)
     = (Return (Some (mkResponse 400 (ErrorBody error))),
        mkWorld None (tr ++ [EvLockFailed; EvUnlock]))).
Proof.
  intros Hurl Hv. unfold shorten, try_catch, bind, lift.
  rewrite bool_decide_eq_false_2, Hv by done.
  unfold findUrl, readDB, contended, idle, read_section; run_js.
  rewrite <- !app_assoc. split_and!; by eexists.
Qed.

(** X21. A new short link never takes over a code in use: the code that the
    handler stores has at most six characters and its index entry was falsy
    before; every non-empty entry of the index is still there afterwards,
    and the new code is mapped to the normalised URL. *)
Theorem shorten_keeps_existing_codes (url v now : string)
    (randoms : list string) (db : DB) (tr : list Event) :
  url ≠ "" → validateUrl isURL URL_toString url = Return v →
  v ∉ original <$> urls db →
  Exists (λ r, truthy (get_property (codes db) (generateCode r)) = false)
         randoms →
  ∃ c db' tr',
    shorten BASE_URL (validateUrl isURL URL_toString) url now randoms
      (ready db tr)
      = (Return (Some (mkResponse 201 (LinkBody v (BASE_URL +:+ "/r/" +:+ c) c))),
         ready db' tr') ∧
    (String.length c ≤ 6)%nat ∧
    truthy (get_property (codes db) c) = false ∧
    codes db' !! c = Some v ∧
    (∀ k o, codes db !! k = Some o → o ≠ "" → codes db' !! k = Some o).
Proof.
  intros Hurl Hv Hfresh [c Hfree]%first_free_Exists.
  destruct (shorten_new BASE_URL (validateUrl isURL URL_toString)
              url v now randoms c db tr Hurl Hv Hfresh Hfree) as [tr' Hrun].
  apply first_free_Some in Hfree as (r & _ & -> & Hfalsy).
  destruct (generateCode_not_inherited r (codes db) v) as (_ & Hget & Hset).
  eexists _, _, _. split; [apply Hrun|]. cbn [codes].
  split_and!; [apply generateCode_at_most_six | done | |].
  - rewrite Hset. apply lookup_insert_eq.
  - intros k o Hk Ho. rewrite Hset.
    destruct (decide (k = generateCode r)) as [->|Hne].
    + rewrite Hget, Hk in Hfalsy. cbn in Hfalsy.
      by rewrite bool_decide_eq_false_2 in Hfalsy.
    + by rewrite lookup_insert_ne.
Qed.

(** X22. Two spellings of one URL get one short link: when [validateUrl]
    normalises two request URLs to the same string, not stored yet, the
    request with the second spelling is answered with the record created
    for the first, and nothing more is stored. *)
Theorem shorten_is_keyed_by_normalised_url (url1 url2 v now1 now2 : string)
    (randoms1 randoms2 : list string) (db : DB) (tr : list Event) :
  url1 ≠ "" → url2 ≠ "" →
  validateUrl isURL URL_toString url1 = Return v →
  validateUrl isURL URL_toString url2 = Return v →
  v ∉ original <$> urls db →
  Exists (λ r, truthy (get_property (codes db) (generateCode r)) = false)
         randoms1 →
  ∃ c db1 tr1 tr2,
    shorten BASE_URL (validateUrl isURL URL_toString) url1 now1 randoms1
      (ready db tr)
      = (Return (Some (mkResponse 201 (LinkBody v (BASE_URL +:+ "/r/" +:+ c) c))),
         ready db1 tr1) ∧
    shorten BASE_URL (validateUrl isURL URL_toString) url2 now2 randoms2
      (ready db1 tr1)
      = (Return (Some (mkResponse 200 (LinkBody v (BASE_URL +:+ "/r/" +:+ c) c))),
         ready db1 tr2) ∧
    length (urls db1) = S (length (urls db)).
Proof.
  intros Hurl1 Hurl2 Hv1 Hv2 Hfresh [c Hfree]%first_free_Exists.
  destruct (shorten_new BASE_URL (validateUrl isURL URL_toString)
              url1 v now1 randoms1 c db tr Hurl1 Hv1 Hfresh Hfree) as [tr1 Hrun].
  eexists c, _, _, _. split_and!; [apply Hrun | |].
  - by apply (shorten_existing BASE_URL (validateUrl isURL URL_toString)
                url2 v now2 randoms2 (urls db)
                (mkUrlData v (BASE_URL +:+ "/r/" +:+ c) c now1 0) []).
  - cbn [urls]. rewrite length_app. cbn. lia.
Qed.

End RequestProperties.

Lemma shorten_refuses_without_storage_witness :
  shorten "https://sho.rt" (validateUrl example_isURL example_URL_toString)
    "" "2024-03-03" ["0.i"] (contended None [])
  = (Return (Some (mkResponse 400 (ErrorBody "Se requiere una URL"))),
     contended None []) ∧
  shorten "https://sho.rt" (validateUrl example_isURL example_URL_toString)
    "example.org" "2024-03-03" ["0.i"] (contended None [])
  = (Return (Some (mkResponse 400
       (ErrorBody "URL inválida. Debe incluir http:// o https://"))),
     contended None []) ∧
  shorten "https://sho.rt" (validateUrl example_isURL example_URL_toString)
    "https://[" "2024-03-03" ["0.i"] (contended None [])
  = (Return (Some (mkResponse 400 (ErrorBody "URL mal formada"))),
     contended None []).
Proof.
  split_and!.
  - by apply (shorten_refuses_without_storage "https://sho.rt" example_isURL
                example_URL_toString "").
  - by apply (shorten_refuses_without_storage "https://sho.rt" example_isURL
                example_URL_toString "example.org").
  - by apply (shorten_refuses_without_storage "https://sho.rt" example_isURL
                example_URL_toString "https://[").
Defined.

Lemma shorten_reports_storage_failure_as_400_witness :
  (∃ error,
     shorten "https://sho.rt" (validateUrl example_isURL example_URL_toString)
       "https://example.org/" "2024-03-03" ["0.i"]
       (contended (Some (Stored example_store)) [])
     = (Return (Some (mkResponse 400 (ErrorBody error))),
        idle (Some (Stored example_store)) ([] ++ [EvLockFailed; EvUnlock]))) ∧
  (∃ error,
     shorten "https://sho.rt" (validateUrl example_isURL example_URL_toString)
       "https://example.org/" "2024-03-03" ["0.i"]
       (idle (Some (Unparseable "{")) [])
     = (Return (Some (mkResponse 400 (ErrorBody error))),
        idle (Some (Unparseable "{")) ([] ++ read_section))) ∧
  (∃ error,
     shorten "https://sho.rt" (validateUrl example_isURL example_URL_toString)
       "https://example.org/" "2024-03-03" ["0.i"] (mkWorld None [])
     = (Return (Some (mkResponse 400 (ErrorBody error))),
        mkWorld None ([] ++ [EvLockFailed; EvUnlock]))).
Proof.
  by apply (shorten_reports_storage_failure_as_400 "https://sho.rt"
              example_isURL example_URL_toString "https://example.org/"
              "https://example.org/" "2024-03-03" "{" ["0.i"]
              (Some (Stored example_store)) []).
Defined.

Lemma shorten_keeps_existing_codes_witness :
  ∃ c db' tr',
    shorten "https://sho.rt" (validateUrl example_isURL example_URL_toString)
      "https://example.org/" "2024-03-03" ["0.ab12cdxyz"; "0.zz99yyk"]
      (ready example_store [])
      = (Return (Some (mkResponse 201
           (LinkBody "https://example.org/" ("https://sho.rt" +:+ "/r/" +:+ c) c))),
         ready db' tr') ∧
    (String.length c ≤ 6)%nat ∧
    truthy (get_property (codes example_store) c) = false ∧
    codes db' !! c = Some "https://example.org/" ∧
    (∀ k o, codes example_store !! k = Some o → o ≠ "" →
            codes db' !! k = Some o).
Proof.
  apply (shorten_keeps_existing_codes "https://sho.rt" example_isURL
           example_URL_toString "https://example.org/");
    [done | done | |].
  - by intros ?%list_elem_of_singleton.
  - right. by left.
Defined.

Lemma shorten_is_keyed_by_normalised_url_witness :
  ∃ c db1 tr1 tr2,
    shorten "https://sho.rt" (validateUrl example_isURL (λ _, Some "https://example.org/"))
      "https://EXAMPLE.org" "2024-03-03" ["0.zz99yyk"] (ready example_store [])
      = (Return (Some (mkResponse 201
           (LinkBody "https://example.org/" ("https://sho.rt" +:+ "/r/" +:+ c) c))),
         ready db1 tr1) ∧
    shorten "https://sho.rt" (validateUrl example_isURL (λ _, Some "https://example.org/"))
      "https://example.org:443/" "2024-03-04" [] (ready db1 tr1)
      = (Return (Some (mkResponse 200
           (LinkBody "https://example.org/" ("https://sho.rt" +:+ "/r/" +:+ c) c))),
         ready db1 tr2) ∧
    length (urls db1) = S (length (urls example_store)).
Proof.
  apply (shorten_is_keyed_by_normalised_url "https://sho.rt" example_isURL
           (λ _, Some "https://example.org/"));
    [done | done | done | done | |].
  - by intros ?%list_elem_of_singleton.
  - by left.
Defined.

(** ** The redirect handler *)

(** X23. A known code: when the index maps the code to a non-empty URL and
    some record has the code, the handler counts one click on the first
    record with that code and redirects (302) to the URL of the index. *)
Theorem redirect_counts_then_redirects (c u : string)
    (pre post : list UrlData) (r : UrlData) (cs : gmap string string)
    (tr : list Event) :
  code r = c → c ∉ code <$> pre → cs !! c = Some u → u ≠ "" →
  redirect c (ready (mkDB (pre ++ r :: post) cs) tr)
  = (Return (Redirected 302 (JsString u)),
     ready (mkDB (pre ++ with_clicks (clicks r + 1) r :: post) cs)
           (tr ++ read_section ++ read_section ++ [EvLock; EvWrite; EvUnlock])).
Proof.
  intros Hr Hpre Hcs Hu. unfold redirect. apply try_catch_Return.
  erewrite bind_Return by apply findCode_ready.
  cbn [codes]. unfold get_property. rewrite Hcs. cbn [truthy negb].
  rewrite bool_decide_eq_false_2 by done. cbn [negb].
  erewrite bind_Return by (by apply registerClick_found).
  unfold ret, read_section. by rewrite <- !app_assoc.
Qed.

Lemma redirect_counts_then_redirects_witness :
  redirect "ab12cd"
    (ready (mkDB ([example_other] ++ example_record :: [example_again])
                 {[ "ab12cd" := "https://example.com/" ]}) [])
  = (Return (Redirected 302 (JsString "https://example.com/")),
     ready (mkDB ([example_other]
                  ++ with_clicks (clicks example_record + 1) example_record
                  :: [example_again])
                 {[ "ab12cd" := "https://example.com/" ]})
           ([] ++ read_section ++ read_section ++ [EvLock; EvWrite; EvUnlock])).
Proof.
  apply redirect_counts_then_redirects; [done | | done | done].
  by apply not_in_codes; repeat constructor.
Defined.

(** X24. An unknown code: when the index entry of the code is falsy (no
    entry and not an inherited name, or an empty URL), the handler answers
    404 after one lookup; it registers no click and writes nothing, even if
    some record has that code. *)
Theorem redirect_unknown_code_is_404 (c : string) (db : DB) (tr : list Event) :
  truthy (get_property (codes db) c) = false →
  redirect c (ready db tr)
  = (Return (Sent 404 "URL no encontrada"), ready db (tr ++ read_section)).
Proof.
  intros Hfalsy. unfold redirect. apply try_catch_Return.
  erewrite bind_Return by apply findCode_ready. by rewrite Hfalsy.
Qed.

Lemma redirect_unknown_code_is_404_witness :
  redirect "nosuch" (ready example_store [])
  = (Return (Sent 404 "URL no encontrada"),
     ready example_store ([] ++ read_section)).
Proof. apply redirect_unknown_code_is_404. reflexivity. Defined.

(** X25. A failure of the store during a redirect is answered 500 (where
    the shorten handler answers 400): when the lock stays taken, when the
    data file is not JSON or when the directory is missing. Nothing is
    written; a taken lock is removed on the way. *)
Theorem redirect_reports_storage_failure_as_500 (c text : string)
    (content : option FileContent) (tr : list Event) :
  redirect c (contended content tr)
  = (Return (Sent 500 "Error interno del servidor"),
     idle content (tr ++ [EvLockFailed; EvUnlock])) ∧
  redirect c (idle (Some (Unparseable text)) tr)
  = (Return (Sent 500 "Error interno del servidor"),
     idle (Some (Unparseable text)) (tr ++ read_section)) ∧
  redirect c (mkWorld None tr)
  = (Return (Sent 500 "Error interno del servidor"),
     mkWorld None (tr ++ [EvLockFailed; EvUnlock])).
Proof.
  unfold redirect, try_catch, bind, findCode, readDB, contended, idle,
    read_section; run_js.
  by rewrite <- !app_assoc.
Qed.

(** X26. A truthy lookup without a record: when [db.codes[code]] is truthy
    but no record has the code, the handler redirects to what the lookup
    gave and the store is unchanged. This is the case of the names that the
    index inherits as a plain object: [/r/constructor] is not answered
    404. *)
Theorem redirect_without_record (c : string) (db : DB) (tr : list Event) :
  truthy (get_property (codes db) c) = true → c ∉ code <$> urls db →
  redirect c (ready db tr)
  = (Return (Redirected 302 (get_property (codes db) c)),
     ready db (tr ++ read_section ++ read_section)).
Proof.
  intros Htruthy Hnone. unfold redirect. apply try_catch_Return.
  erewrite bind_Return by apply findCode_ready. rewrite Htruthy. cbn [negb].
  erewrite bind_Return by (by apply registerClick_unknown).
  unfold ret, read_section. by rewrite <- !app_assoc.
Qed.

Lemma redirect_without_record_witness :
  redirect "constructor" (ready example_store [])
  = (Return (Redirected 302 (Inherited "constructor")),
     ready example_store ([] ++ read_section ++ read_section)).
Proof.
  apply (redirect_without_record "constructor" example_store []); [done|].
  by intros ?%list_elem_of_singleton.
Defined.

(** X27. Two records under one code. When [saveUrl] is given a code that an
    older record has, the index entry is overwritten: the redirect of that
    code now goes to the new URL, while its clicks are counted on the older
    record, the first one with the code. *)
Theorem duplicate_code_redirects_new_counts_old (d r0 : UrlData)
    (pre post : list UrlData) (cs : gmap string string) (tr : list Event) :
  code r0 = code d → code d ∉ code <$> pre →
  code d ≠ "__proto__" → original d ≠ "" →
  ∃ tr',
    (await saveUrl d; redirect (code d))
      (ready (mkDB (pre ++ r0 :: post) cs) tr)
    = (Return (Redirected 302 (JsString (original d))),
       ready (mkDB (pre ++ with_clicks (clicks r0 + 1) r0 :: post ++ [d])
                   (<[code d:=original d]> cs)) tr').
Proof.
  intros Hr0 Hpre Hproto Hd. eexists.
  erewrite bind_Return by apply saveUrl_ready. cbn [urls codes].
  replace (set_property cs (code d) (original d))
    with (<[code d:=original d]> cs)
    by (unfold set_property; rewrite bool_decide_eq_false_2; [done|];
        by intros [? _]).
  rewrite <- app_assoc. cbn [app].
  by apply redirect_counts_then_redirects; [..|apply lookup_insert_eq|].
Qed.

Lemma duplicate_code_redirects_new_counts_old_witness :
  ∃ tr',
    (await saveUrl example_other_url_same_code;
     redirect (code example_other_url_same_code))
      (ready (mkDB ([] ++ example_record :: [])
                   {[ "ab12cd" := "https://example.com/" ]}) [])
    = (Return (Redirected 302 (JsString "https://example.net/")),
       ready (mkDB ([] ++ with_clicks (clicks example_record + 1) example_record
                       :: [] ++ [example_other_url_same_code])
                   (<["ab12cd":="https://example.net/"]>
                      {[ "ab12cd" := "https://example.com/" ]})) tr').
Proof.
  apply (duplicate_code_redirects_new_counts_old
           example_other_url_same_code example_record [] []);
    [done | | done | done].
  by apply not_in_codes.
Defined.

(** ** From a new short link to its redirect *)

Section EndToEnd.

Variable BASE_URL : string.
Variable isURL : string → bool.
Variable URL_toString : string → option string.

(** X28. A link that was just created resolves. On a store whose index
    agrees with its records and whose URLs are non-empty, with random
    numbers whose codes are non-empty and made of base-36 digits (the route
    [/r/:code] does not match the empty code that the generation can give
    for a short expansion), after a shorten request has created a record
    (status 201) with the code [c], that code is a non-empty base-36 string
    and the redirect handler run on it answers 302 to the normalised URL;
    the click is counted on the new record, which then has [clicks = 1], and
    no other record changes. *)
Theorem new_link_resolves (url v now : string) (randoms : list string)
    (db : DB) (tr : list Event) :
  url ≠ "" → validateUrl isURL URL_toString url = Return v → v ≠ "" →
  v ∉ original <$> urls db →
  well_indexed db → Forall (λ r, original r ≠ "") (urls db) →
  Forall (λ r, generateCode r ≠ "" ∧ all_base36 (generateCode r) = true)
         randoms →
  Exists (λ r, truthy (get_property (codes db) (generateCode r)) = false)
         randoms →
  ∃ c cs tr1 tr2,
    c ≠ "" ∧ all_base36 c = true ∧
    shorten BASE_URL (validateUrl isURL URL_toString) url now randoms
      (ready db tr)
      = (Return (Some (mkResponse 201 (LinkBody v (BASE_URL +:+ "/r/" +:+ c) c))),
         ready (mkDB (urls db ++ [mkUrlData v (BASE_URL +:+ "/r/" +:+ c) c now 0])
                     cs) tr1) ∧
    redirect c
      (ready (mkDB (urls db ++ [mkUrlData v (BASE_URL +:+ "/r/" +:+ c) c now 0])
                   cs) tr1)
      = (Return (Redirected 302 (JsString v)),
         ready (mkDB (urls db ++ [mkUrlData v (BASE_URL +:+ "/r/" +:+ c) c now 1])
                     cs) tr2).
Proof.
  intros Hurl Hv Hnonempty Hfresh Hindex Hurls Hcodes
    [c Hfree]%first_free_Exists.
  destruct (shorten_new BASE_URL (validateUrl isURL URL_toString)
              url v now randoms c db tr Hurl Hv Hfresh Hfree) as [tr1 Hrun].
  apply first_free_Some in Hfree as (r & Hin & -> & Hfalsy).
  rewrite Forall_forall in Hcodes. destruct (Hcodes r Hin) as [Hne Hdigits].
  destruct (generateCode_not_inherited r (codes db) v) as (_ & Hget & Hset).
  assert (generateCode r ∉ code <$> urls db) as Hcode.
  { intros (r' & Hc & Hr')%list_elem_of_fmap.
    rewrite Hget, Hc, (Hindex r' Hr') in Hfalsy. cbn in Hfalsy.
    rewrite Forall_forall in Hurls.
    by rewrite bool_decide_eq_false_2 in Hfalsy by (by apply Hurls). }
  eexists _, _, _, _. split_and!; [done | done | apply Hrun |].
  by apply (redirect_counts_then_redirects (generateCode r) v (urls db) []);
    [..|rewrite Hset; apply lookup_insert_eq|].
Qed.

End EndToEnd.

Lemma new_link_resolves_witness :
  ∃ c cs tr1 tr2,
    c ≠ "" ∧ all_base36 c = true ∧
    shorten "https://sho.rt" (validateUrl example_isURL example_URL_toString)
      "https://example.org/" "2024-03-03" ["0.ab12cdxyz"; "0.zz99yyk"]
      (ready example_store [])
      = (Return (Some (mkResponse 201
           (LinkBody "https://example.org/" ("https://sho.rt" +:+ "/r/" +:+ c) c))),
         ready (mkDB (urls example_store
                      ++ [mkUrlData "https://example.org/"
                            ("https://sho.rt" +:+ "/r/" +:+ c) c "2024-03-03" 0])
                     cs) tr1) ∧
    redirect c
      (ready (mkDB (urls example_store
                    ++ [mkUrlData "https://example.org/"
                          ("https://sho.rt" +:+ "/r/" +:+ c) c "2024-03-03" 0])
                   cs) tr1)
      = (Return (Redirected 302 (JsString "https://example.org/")),
         ready (mkDB (urls example_store
                      ++ [mkUrlData "https://example.org/"
                            ("https://sho.rt" +:+ "/r/" +:+ c) c "2024-03-03" 1])
                     cs) tr2).
Proof.
  apply (new_link_resolves "https://sho.rt" example_isURL example_URL_toString
           "https://example.org/");
    [done | done | done | | | | |].
  - by intros ?%list_elem_of_singleton.
  - intros r ->%list_elem_of_singleton. reflexivity.
  - by repeat constructor.
  - by repeat constructor.
  - right. by left.
Defined.
